(** * Product discovery and interaction engine of the marketplace back end

    A shallow embedding of the Express/Mongoose back end (product
    controller, user interaction controller, authentication middleware,
    Product and User models, request schemas) and the properties of its
    catalogue operations.

    Conventions of the embedding.
    - JavaScript strings are [string]s (one character per code unit).
    - JavaScript numbers are exact: [JsNum] has NaN, the two infinities and
      the rationals; IEEE rounding is not part of the model.
    - A MongoDB collection is the list of its documents in insertion order.
    - An [async] handler is a program of the monad [Prog]: every [await]ed
      model call is one atomic database operation, and the points between
      them are the only places where another request can run. *)

From Stdlib Require Import String Ascii List Bool ZArith QArith Qabs Lia.
From Stdlib Require Import Sorting.Sorted Sorting.Permutation.
Import ListNotations.

Local Open Scope string_scope.
Local Open Scope Z_scope.

(** ** JavaScript strings *)

Module JsString.

Definition code (c : ascii) : N := N_of_ascii c.

(** White space removed by [String.prototype.trim] and skipped by the
    number parsers (tab, line feed, vertical tab, form feed, carriage
    return, space). *)
Definition is_space (c : ascii) : bool :=
  let n := code c in
  (N.eqb n 9 || N.eqb n 10 || N.eqb n 11 || N.eqb n 12 || N.eqb n 13 || N.eqb n 32)%bool.

Definition is_digit (c : ascii) : bool :=
  let n := code c in (N.leb 48 n && N.leb n 57)%bool.

Definition is_upper (c : ascii) : bool :=
  let n := code c in (N.leb 65 n && N.leb n 90)%bool.

Definition is_lower (c : ascii) : bool :=
  let n := code c in (N.leb 97 n && N.leb n 122)%bool.

Definition to_lower_char (c : ascii) : ascii :=
  if is_upper c then ascii_of_N (code c + 32) else c.

Fixpoint toLowerCase (s : string) : string :=
  match s with
  | EmptyString => EmptyString
  | String c r => String (to_lower_char c) (toLowerCase r)
  end.

(** Value of a digit in a radix up to 16, [None] for any other character. *)
Definition digit_val (radix : Z) (c : ascii) : option Z :=
  let n := Z.of_N (code c) in
  let v := if is_digit c then n - 48
           else if (97 <=? n) && (n <=? 102) then n - 87
           else if (65 <=? n) && (n <=? 70) then n - 55
           else 99 in
  if v <? radix then Some v else None.

Definition is_hex (c : ascii) : bool :=
  match digit_val 16 c with Some _ => true | None => false end.

Fixpoint trimStart (s : string) : string :=
  match s with
  | String c r => if is_space c then trimStart r else s
  | EmptyString => EmptyString
  end.

Fixpoint rev_string_onto (s acc : string) : string :=
  match s with
  | EmptyString => acc
  | String c r => rev_string_onto r (String c acc)
  end.

Definition rev_string (s : string) : string := rev_string_onto s EmptyString.

Definition trimEnd (s : string) : string := rev_string (trimStart (rev_string s)).

Definition trim (s : string) : string := trimEnd (trimStart s).

(** [s.split(sep)] for a one-character separator: always at least one
    piece. *)
Fixpoint split_onto (sep : ascii) (s : string) (cur : string) : list string :=
  match s with
  | EmptyString => [rev_string cur]
  | String c r =>
      if Ascii.eqb c sep then rev_string cur :: split_onto sep r EmptyString
      else split_onto sep r (String c cur)
  end.

Definition split (sep : ascii) (s : string) : list string :=
  split_onto sep s EmptyString.

Fixpoint all_chars (f : ascii -> bool) (s : string) : bool :=
  match s with
  | EmptyString => true
  | String c r => f c && all_chars f r
  end.

Fixpoint starts_with (pre s : string) : bool :=
  match pre, s with
  | EmptyString, _ => true
  | String a p, String b r => Ascii.eqb a b && starts_with p r
  | String _ _, EmptyString => false
  end.

Fixpoint drop (n : nat) (s : string) : string :=
  match n, s with
  | O, _ => s
  | S m, String _ r => drop m r
  | S _, EmptyString => EmptyString
  end.

(** [hay.includes(needle)]. *)
Fixpoint includes (needle hay : string) : bool :=
  starts_with needle hay ||
  match hay with
  | EmptyString => false
  | String _ r => includes needle r
  end.

(** Longest prefix of characters satisfying [f], and the rest. *)
Fixpoint span (f : ascii -> bool) (s : string) : string * string :=
  match s with
  | String c r =>
      if f c then let (a, b) := span f r in (String c a, b) else (EmptyString, s)
  | EmptyString => (EmptyString, EmptyString)
  end.

End JsString.

(** ** JavaScript numbers *)

Inductive JsNum : Type :=
| NaN
| Inf (negative : bool)
| Fin (q : Q).

Module JsNumber.

Import JsString.

Definition of_Z (z : Z) : JsNum := Fin (inject_Z z).

(** [a <= b], [a < b], [a >= b], [a > b]: false as soon as one side is
    NaN. *)
Definition le (a b : JsNum) : bool :=
  match a, b with
  | NaN, _ | _, NaN => false
  | Inf true, _ => true
  | _, Inf false => true
  | Inf false, _ => false
  | _, Inf true => false
  | Fin x, Fin y => Qle_bool x y
  end.

Definition lt (a b : JsNum) : bool :=
  match a, b with
  | NaN, _ | _, NaN => false
  | _, _ => negb (le b a)
  end.

Definition ge (a b : JsNum) : bool := le b a.
Definition gt (a b : JsNum) : bool := lt b a.

Definition isNaN (a : JsNum) : bool :=
  match a with NaN => true | _ => false end.

Definition sign_of (q : Q) : Z := Z.sgn (Qnum q).

(** [a * b]. *)
Definition mul (a b : JsNum) : JsNum :=
  match a, b with
  | NaN, _ | _, NaN => NaN
  | Fin x, Fin y => Fin (x * y)
  | Inf n, Inf m => Inf (xorb n m)
  | Inf n, Fin y | Fin y, Inf n =>
      match sign_of y with
      | 0 => NaN
      | Zpos _ => Inf n
      | Zneg _ => Inf (negb n)
      end
  end.

(** Value of a string of digits in the given radix (characters that are
    not digits count as 0; callers pass digit strings only). *)
Fixpoint digits_val (radix : Z) (s : string) (acc : Z) : Z :=
  match s with
  | EmptyString => acc
  | String c r =>
      digits_val radix r
        (acc * radix + match digit_val radix c with Some v => v | None => 0 end)
  end.

Definition is_radix_digit (radix : Z) (c : ascii) : bool :=
  match digit_val radix c with Some _ => true | None => false end.

(** [10^k] as a rational, for any integer [k]. *)
Definition pow10 (k : Z) : Q :=
  match k with
  | Zneg p => 1 # (Z.to_pos (10 ^ Zpos p))
  | _ => inject_Z (10 ^ k)
  end.

(** Optional sign: [true] when negative, and the rest. *)
Definition take_sign (s : string) : bool * string :=
  match s with
  | String "-" r => (true, r)
  | String "+" r => (false, r)
  | _ => (false, s)
  end.

(** Exponent part [e[+-]digits] of a decimal literal: the exponent and the
    rest; without digits the exponent part is not consumed. *)
Definition take_exponent (s : string) : Z * string :=
  match s with
  | String c r =>
      if (Ascii.eqb c "e" || Ascii.eqb c "E")%bool then
        let (neg, r1) := take_sign r in
        let (ds, r2) := span is_digit r1 in
        match ds with
        | EmptyString => (0, s)
        | _ => ((if neg then - digits_val 10 ds 0 else digits_val 10 ds 0), r2)
        end
      else (0, s)
  | EmptyString => (0, s)
  end.

(** An unsigned decimal literal at the start of [s] (digits, fraction,
    exponent; [Infinity]): its value and the rest, or [None] when [s] does
    not start with one. *)
Definition take_decimal (s : string) : option (JsNum * string) :=
  if starts_with "Infinity" s then Some (Inf false, drop 8 s)
  else
    let (ip, r1) := span is_digit s in
    let (fp, r2) :=
      match r1 with
      | String "." r => span is_digit r
      | _ => (EmptyString, r1)
      end in
    match ip, fp with
    | EmptyString, EmptyString => None
    | _, _ =>
        let (e, r3) := take_exponent r2 in
        let mant := digits_val 10 (ip ++ fp) 0 in
        Some (Fin (inject_Z mant * pow10 (e - Z.of_nat (String.length fp))), r3)
    end.

Definition negate (a : JsNum) : JsNum :=
  match a with
  | NaN => NaN
  | Inf n => Inf (negb n)
  | Fin q => Fin (Qopp q)
  end.

(** [parseFloat(s)]: the longest decimal literal after leading white
    space, NaN when there is none. *)
Definition parseFloat (s : string) : JsNum :=
  let (neg, r) := take_sign (trimStart s) in
  match take_decimal r with
  | Some (v, _) => if neg then negate v else v
  | None => NaN
  end.

(** [parseInt(s)] without radix: an integer, or [None] for NaN. Leading
    white space and a sign are skipped; [0x] selects radix 16. *)
Definition parseInt (s : string) : option Z :=
  let (neg, r) := take_sign (trimStart s) in
  let (radix, body) :=
    if (starts_with "0x" r || starts_with "0X" r)%bool then (16, drop 2 r)
    else (10, r) in
  let (ds, _) := span (is_radix_digit radix) body in
  match ds with
  | EmptyString => None
  | _ => let v := digits_val radix ds 0 in Some (if neg then - v else v)
  end.

(** A prefixed integer literal ([0x], [0o], [0b]) taking the whole
    string. *)
Definition prefixed_literal (s : string) : option JsNum :=
  let lit (radix : Z) (body : string) :=
    match body with
    | EmptyString => Some NaN
    | _ => if all_chars (is_radix_digit radix) body
           then Some (of_Z (digits_val radix body 0)) else Some NaN
    end in
  if (starts_with "0x" s || starts_with "0X" s)%bool then lit 16 (drop 2 s)
  else if (starts_with "0o" s || starts_with "0O" s)%bool then lit 8 (drop 2 s)
  else if (starts_with "0b" s || starts_with "0B" s)%bool then lit 2 (drop 2 s)
  else None.

(** [Number(s)], the conversion applied by arithmetic on a string: the
    whole trimmed string must be a numeric literal; the empty string is 0. *)
Definition toNumber (s : string) : JsNum :=
  let t := trim s in
  match t with
  | EmptyString => of_Z 0
  | _ =>
      match prefixed_literal t with
      | Some v => v
      | None =>
          let (neg, r) := take_sign t in
          match take_decimal r with
          | Some (v, EmptyString) => if neg then negate v else v
          | _ => NaN
          end
      end
  end.

End JsNumber.

Import JsString.

(** ** Values, errors and documents *)

(** A MongoDB ObjectId, by its canonical text: 24 lower-case hexadecimal
    digits ([toString()] of the id). *)
Record ObjectId : Type := { oid_hex : string }.

Definition ObjectId_eqb (a b : ObjectId) : bool :=
  String.eqb (oid_hex a) (oid_hex b).

(** The texts of 24 hexadecimal digits, the form the request schemas ask
    of an id ([/^[0-9a-fA-F]{24}$/]), and the ObjectId such a text denotes. *)
Definition isObjectIdString (s : string) : bool :=
  (Nat.eqb (String.length s) 24 && all_chars is_hex s)%bool.

Definition castObjectId (s : string) : option ObjectId :=
  if isObjectIdString s then Some {| oid_hex := toLowerCase s |} else None.

(** The JavaScript values an identifier expression can hold in the
    handlers: [undefined], a string (from a URL, a body or a token), or an
    ObjectId object (the [_id] of a loaded document). *)
Inductive JsVal : Type :=
| JUndefined
| JString (s : string)
| JObjectId (o : ObjectId).

(** [s !== v] for a string [s]: strict inequality holds whenever [v] is
    not a string, and compares the texts otherwise. *)
Definition string_strict_neq (s : string) (v : JsVal) : bool :=
  match v with
  | JString t => negb (String.eqb s t)
  | JUndefined | JObjectId _ => true
  end.

(** The exceptions the handlers can see, by [error.name]. *)
Inductive JsError : Type :=
| CastError
| ValidationError (messages : list string)
| MongoServerError
| DocumentNotFoundError
| TypeError
| JsonWebTokenError
| TokenExpiredError.

Inductive Result (A : Type) : Type :=
| Ok (a : A)
| Err (e : JsError).
Arguments Ok {A} a.
Arguments Err {A} e.

Module User.

(** The fields of the User model that the catalogue handlers read or
    write. *)
Record t : Type := {
  _id : ObjectId;
  username : string;
  email : string;
  isActive : bool;
  likedProducts : list ObjectId
}.

Definition set_likedProducts (l : list ObjectId) (u : t) : t :=
  {| _id := _id u; username := username u; email := email u;
     isActive := isActive u; likedProducts := l |}.

End User.

Module Product.

(** A Product document; [coordinates] is [pLoc.coordinates], longitude
    first, and [pLoc.type] is always ['Point']. Dates are milliseconds and
    the counters are integers. [additionalImages], which no handler
    touches, is left out. *)
Record t : Type := {
  _id : ObjectId;
  pname : string;
  pdesc : string;
  price : JsNum;
  category : string;
  pimage : string;
  pimage2 : option string;
  addedBy : ObjectId;
  coordinates : list JsNum;
  status : string;
  condition : string;
  likesCount : Z;
  viewsCount : Z;
  createdAt : Z;
  updatedAt : Z
}.

Definition set_likesCount (v : Z) (p : t) : t :=
  {| _id := _id p; pname := pname p; pdesc := pdesc p; price := price p;
     category := category p; pimage := pimage p; pimage2 := pimage2 p;
     addedBy := addedBy p; coordinates := coordinates p; status := status p;
     condition := condition p; likesCount := v; viewsCount := viewsCount p;
     createdAt := createdAt p; updatedAt := updatedAt p |}.

Definition set_viewsCount (v : Z) (p : t) : t :=
  {| _id := _id p; pname := pname p; pdesc := pdesc p; price := price p;
     category := category p; pimage := pimage p; pimage2 := pimage2 p;
     addedBy := addedBy p; coordinates := coordinates p; status := status p;
     condition := condition p; likesCount := likesCount p; viewsCount := v;
     createdAt := createdAt p; updatedAt := updatedAt p |}.

Definition set_updatedAt (v : Z) (p : t) : t :=
  {| _id := _id p; pname := pname p; pdesc := pdesc p; price := price p;
     category := category p; pimage := pimage p; pimage2 := pimage2 p;
     addedBy := addedBy p; coordinates := coordinates p; status := status p;
     condition := condition p; likesCount := likesCount p;
     viewsCount := viewsCount p; createdAt := createdAt p; updatedAt := v |}.

(** *** Schema validators *)

Definition categories : list string :=
  ["Electronics"; "Clothing"; "Books"; "Home & Garden"; "Sports"; "Vehicles"; "Other"].
Definition statuses : list string := ["active"; "sold"; "inactive"].
Definition conditions : list string := ["new"; "like-new"; "good"; "fair"; "poor"].

Definition in_enum (values : list string) (s : string) : bool :=
  existsb (String.eqb s) values.

(** [min: [0.01, 'Price must be greater than 0']]. *)
Definition price_ok (v : JsNum) : bool := JsNumber.ge v (Fin (1 # 100)).

(** The validator of [pLoc.coordinates]:
    [v.length === 2 && v[0] >= -180 && v[0] <= 180 && v[1] >= -90 && v[1] <= 90]. *)
Definition coordinates_ok (v : list JsNum) : bool :=
  match v with
  | [lon; lat] =>
      (JsNumber.ge lon (JsNumber.of_Z (-180)) && JsNumber.le lon (JsNumber.of_Z 180) &&
       JsNumber.ge lat (JsNumber.of_Z (-90)) && JsNumber.le lat (JsNumber.of_Z 90))%bool
  | _ => false
  end.

(** Messages of the validators of one path, for a value already cast. *)
Definition check_text (required_msg : string) (maxlen : nat) (max_msg : string)
    (v : string) : list string :=
  (if String.eqb v "" then [required_msg] else []) ++
  (if Nat.ltb maxlen (String.length v) then [max_msg] else []).

Definition check_pname : string -> list string :=
  check_text "Product name is required" 100 "Product name cannot exceed 100 characters".
Definition check_pdesc : string -> list string :=
  check_text "Product description is required" 500
    "Product description cannot exceed 500 characters".

Definition check_category (v : string) : list string :=
  if String.eqb v "" then ["Product category is required"]
  else if in_enum categories v then [] else ["Invalid category"].

Definition check_enum (values : list string) (path : string) (v : string) : list string :=
  if in_enum values v then []
  else ["`" ++ v ++ "` is not a valid enum value for path `" ++ path ++ "`."].

Definition check_price (v : JsNum) : list string :=
  match v with
  | NaN => ["Cast to Number failed for path price"]
  | _ => if price_ok v then [] else ["Price must be greater than 0"]
  end.

Definition check_coordinates (v : list JsNum) : list string :=
  if existsb JsNumber.isNaN v then ["Cast to [Number] failed for path pLoc.coordinates"]
  else if coordinates_ok v then [] else ["Invalid coordinates"].

(** The validators of a whole document, in schema order. *)
Definition validate (p : t) : list string :=
  check_pname (pname p) ++ check_pdesc (pdesc p) ++ check_price (price p) ++
  check_category (category p) ++
  (if String.eqb (pimage p) "" then ["Product image is required"] else []) ++
  check_coordinates (coordinates p) ++
  check_enum statuses "status" (status p) ++
  check_enum conditions "condition" (condition p).

End Product.

(** The two collections, each in insertion order. *)
Record Store : Type := {
  products : list Product.t;
  users : list User.t
}.

(** ** The services outside the repository

    What the handlers get from their libraries and from the database
    engine, as far as it is not fixed by the code: token verification
    ([jsonwebtoken]), the cast of a string to an ObjectId ([None] when the
    string is not a valid id and the cast throws), case-insensitive
    regular expressions ([$regex] with [$options: 'i']; [None] when the
    pattern does not compile) and the great-circle distance in metres of
    the [2dsphere] index, between two positions given as (longitude,
    latitude). *)

Inductive JwtResult : Type :=
| JwtDecoded (userId : JsVal)
| JwtInvalid
| JwtExpired.

Definition Position : Type := (Q * Q)%type.

Record Env : Type := {
  jwt_verify : string -> JwtResult;
  cast_object_id : string -> option ObjectId;
  regex_i : string -> option (string -> bool);
  geo_distance : Position -> Position -> Q
}.

(** ** Queries on the Product collection *)

Record Near : Type := {
  near_lon : JsNum;
  near_lat : JsNum;
  near_max : JsNum
}.

(** The filter documents the handlers build: [status], [category],
    [price: {$gte, $lte}], the [$or] of three [$regex] clauses on [pname],
    [pdesc] and [category], and [pLoc: {$near}]. *)
Record Query : Type := {
  q_status : option string;
  q_category : option string;
  q_price_gte : option JsNum;
  q_price_lte : option JsNum;
  q_or_regex : option string;
  q_near : option Near
}.

Inductive SortSpec : Type :=
| CreatedAtDesc
| PriceAsc
| PriceDesc.

(** An integer-valued JavaScript number: [None] is NaN. *)
Definition JsInt : Type := option Z.

Module Mongo.

Definition opt_all {A} (o : option A) (f : A -> bool) : bool :=
  match o with Some a => f a | None => true end.

(** The position of a document, when its coordinates are a valid GeoJSON
    point. *)
Definition position_of (p : Product.t) : option Position :=
  match Product.coordinates p with
  | [Fin lon; Fin lat] =>
      if Product.coordinates_ok (Product.coordinates p) then Some (lon, lat) else None
  | _ => None
  end.

(** The centre of a [$near] query: the engine refuses a point outside the
    longitude and latitude bounds. *)
Definition near_centre (n : Near) : option Position :=
  match near_lon n, near_lat n with
  | Fin lon, Fin lat =>
      if Product.coordinates_ok [Fin lon; Fin lat] then Some (lon, lat) else None
  | _, _ => None
  end.

(** [$maxDistance] must be a non-negative number; [None] in the result
    stands for no bound. *)
Definition near_bound (n : Near) : option (option Q) :=
  match near_max n with
  | NaN | Inf true => None
  | Inf false => Some None
  | Fin m => if Qle_bool 0 m then Some (Some m) else None
  end.

Section WithEnv.

Variable E : Env.

Definition within (centre : Position) (bound : option Q) (p : Product.t) : bool :=
  match position_of p with
  | Some pos =>
      match bound with
      | Some m => Qle_bool (geo_distance E pos centre) m
      | None => true
      end
  | None => false
  end.

(** The predicate a filter document denotes, or the error the driver or
    the server raises for it: a NaN price bound does not cast, a pattern
    may not compile, a [$near] clause may be refused. *)
Definition compile (q : Query) : Result (Product.t -> bool) :=
  match q_price_gte q, q_price_lte q with
  | Some NaN, _ | _, Some NaN => Err CastError
  | lo, hi =>
      let base (p : Product.t) : bool :=
        (opt_all (q_status q) (String.eqb (Product.status p)) &&
         opt_all (q_category q) (String.eqb (Product.category p)) &&
         opt_all lo (fun v => JsNumber.ge (Product.price p) v) &&
         opt_all hi (fun v => JsNumber.le (Product.price p) v))%bool in
      let with_regex : Result (Product.t -> bool) :=
        match q_or_regex q with
        | None => Ok base
        | Some pat =>
            match regex_i E pat with
            | None => Err MongoServerError
            | Some m =>
                Ok (fun p => (base p &&
                       (m (Product.pname p) || m (Product.pdesc p) ||
                        m (Product.category p)))%bool)
            end
        end in
      match with_regex, q_near q with
      | Err e, _ => Err e
      | Ok f, None => Ok f
      | Ok f, Some n =>
          match near_centre n, near_bound n with
          | Some c, Some b => Ok (fun p => (f p && within c b p)%bool)
          | _, _ => Err MongoServerError
          end
      end
  end.

(** *** Ordering *)

Fixpoint insert_by {A} (leb : A -> A -> bool) (x : A) (l : list A) : list A :=
  match l with
  | [] => [x]
  | y :: r => if leb x y then x :: l else y :: insert_by leb x r
  end.

(** A stable sort: equal keys keep their order. *)
Definition sort_by {A} (leb : A -> A -> bool) (l : list A) : list A :=
  fold_right (insert_by leb) [] l.

(** The order the server gives to numbers, NaN first. *)
Definition num_leb (a b : JsNum) : bool :=
  match a, b with
  | NaN, _ => true
  | _, NaN => false
  | _, _ => JsNumber.le a b
  end.

Definition sort_leb (s : SortSpec) (a b : Product.t) : bool :=
  match s with
  | CreatedAtDesc => Product.createdAt b <=? Product.createdAt a
  | PriceAsc => num_leb (Product.price a) (Product.price b)
  | PriceDesc => num_leb (Product.price b) (Product.price a)
  end.

(** Distance of a document from the centre of a [$near] query; documents
    that match the clause always have a position. *)
Definition distance_from (centre : Position) (p : Product.t) : Q :=
  match position_of p with
  | Some pos => geo_distance E pos centre
  | None => 0
  end.

Definition nearer (centre : Position) (a b : Product.t) : bool :=
  Qle_bool (distance_from centre a) (distance_from centre b).

(** Order of the result list: an explicit [sort()] decides; without one a
    [$near] query returns the nearest first, and any other query the
    insertion order. An explicit [sort()] re-orders the documents matched
    by [$near], overriding its distance order. *)
Definition order (q : Query) (s : option SortSpec) (l : list Product.t) : list Product.t :=
  match s with
  | Some spec => sort_by (sort_leb spec) l
  | None =>
      match q_near q with
      | Some n =>
          match near_centre n with
          | Some c => sort_by (nearer c) l
          | None => l
          end
      | None => l
      end
  end.

(** *** Windows *)

(** [skip(n)]: NaN and negative numbers are refused. *)
Definition apply_skip (skip : option JsInt) (l : list Product.t) : Result (list Product.t) :=
  match skip with
  | None => Ok l
  | Some None => Err MongoServerError
  | Some (Some n) => if n <? 0 then Err MongoServerError else Ok (skipn (Z.to_nat n) l)
  end.

(** [limit(n)]: 0 means no limit, a negative number limits to its absolute
    value, NaN is refused. *)
Definition apply_limit (limit : option JsInt) (l : list Product.t) : Result (list Product.t) :=
  match limit with
  | None => Ok l
  | Some None => Err MongoServerError
  | Some (Some n) => if n =? 0 then Ok l else Ok (firstn (Z.abs_nat n) l)
  end.

(** [Product.find(q).sort(s).skip(skip).limit(limit)]. *)
Definition find_products (q : Query) (s : option SortSpec) (skip limit : option JsInt)
    (st : Store) : Result (list Product.t) :=
  match compile q with
  | Err e => Err e
  | Ok f =>
      match apply_skip skip (order q s (filter f (products st))) with
      | Err e => Err e
      | Ok l => apply_limit limit l
      end
  end.

(** [Product.countDocuments(q)]. *)
Definition count_products (q : Query) (st : Store) : Result nat :=
  match compile q with
  | Err e => Err e
  | Ok f => Ok (List.length (filter f (products st)))
  end.

(** *** Documents by id *)

(** Casting the argument of [findById]: [undefined] selects nothing, a
    string must be a valid id. *)
Definition cast_id (v : JsVal) : Result (option ObjectId) :=
  match v with
  | JUndefined => Ok None
  | JObjectId o => Ok (Some o)
  | JString s =>
      match cast_object_id E s with
      | Some o => Ok (Some o)
      | None => Err CastError
      end
  end.

Definition product_by_id (o : ObjectId) (st : Store) : option Product.t :=
  List.find (fun p => ObjectId_eqb (Product._id p) o) (products st).

Definition user_by_id (o : ObjectId) (st : Store) : option User.t :=
  List.find (fun u => ObjectId_eqb (User._id u) o) (users st).

Definition findProductById (v : JsVal) (st : Store) : Result (option Product.t) :=
  match cast_id v with
  | Err e => Err e
  | Ok None => Ok None
  | Ok (Some o) => Ok (product_by_id o st)
  end.

Definition findUserById (v : JsVal) (st : Store) : Result (option User.t) :=
  match cast_id v with
  | Err e => Err e
  | Ok None => Ok None
  | Ok (Some o) => Ok (user_by_id o st)
  end.

(** Replace the first document with the given id. *)
Fixpoint replace_product (o : ObjectId) (d : Product.t) (l : list Product.t) : list Product.t :=
  match l with
  | [] => []
  | p :: r =>
      if ObjectId_eqb (Product._id p) o then d :: r else p :: replace_product o d r
  end.

Fixpoint replace_user (o : ObjectId) (d : User.t) (l : list User.t) : list User.t :=
  match l with
  | [] => []
  | u :: r =>
      if ObjectId_eqb (User._id u) o then d :: r else u :: replace_user o d r
  end.

Definition with_products (l : list Product.t) (st : Store) : Store :=
  {| products := l; users := users st |}.

Definition with_users (l : list User.t) (st : Store) : Store :=
  {| products := products st; users := l |}.

End WithEnv.

End Mongo.

(** ** Writes *)

(** The object passed to [new Product(...)] by [addProduct]. A string path
    that is absent from the body behaves as the empty string: both fail
    [required]. *)
Record ProductData : Type := {
  d_pname : option string;
  d_pdesc : option string;
  d_price : JsNum;
  d_category : option string;
  d_pimage : string;
  d_pimage2 : option string;
  d_addedBy : JsVal;
  d_condition : string;
  d_coordinates : list JsNum
}.

(** The body of an update after the protected keys are removed: the
    schema paths a JSON body can set, each with a value of the path's
    type. A body is a plain object of paths; keys that are update
    operators are outside this model. *)
Record Updates : Type := {
  upd_pname : option string;
  upd_pdesc : option string;
  upd_price : option Q;
  upd_category : option string;
  upd_status : option string;
  upd_condition : option string;
  upd_coordinates : option (list Q);
  upd_likesCount : option Z;
  upd_viewsCount : option Z
}.

Inductive ProductPath : Type :=
| P_likesCount
| P_viewsCount.

Module Writes.

Import Mongo.

Section WithEnv.

Variable E : Env.

Definition text_of (o : option string) : string :=
  match o with Some s => trim s | None => "" end.

(** [new Product(data)] with the schema's setters and defaults; the
    validators run on [save()]. *)
Definition new_document (oid : ObjectId) (now : Z) (d : ProductData) : Result Product.t :=
  let owner : option ObjectId :=
    match d_addedBy d with
    | JObjectId o => Some o
    | JString s => cast_object_id E s
    | JUndefined => None
    end in
  let doc (o : ObjectId) : Product.t :=
    {| Product._id := oid;
       Product.pname := text_of (d_pname d);
       Product.pdesc := text_of (d_pdesc d);
       Product.price := d_price d;
       Product.category := text_of (d_category d);
       Product.pimage := d_pimage d;
       Product.pimage2 := d_pimage2 d;
       Product.addedBy := o;
       Product.coordinates := d_coordinates d;
       Product.status := "active";
       Product.condition := d_condition d;
       Product.likesCount := 0;
       Product.viewsCount := 0;
       Product.createdAt := now;
       Product.updatedAt := now |} in
  match owner with
  | Some o =>
      match Product.validate (doc o) with
      | [] => Ok (doc o)
      | msgs => Err (ValidationError msgs)
      end
  | None => Err (ValidationError (Product.validate (doc oid) ++ ["Product owner is required"]))
  end.

(** [new Product(data).save()]. *)
Definition create_product (oid : ObjectId) (now : Z) (d : ProductData) (st : Store)
    : Store * Result Product.t :=
  match new_document oid now d with
  | Ok doc => (with_products (products st ++ [doc]) st, Ok doc)
  | Err e => (st, Err e)
  end.

Definition copy_path (from : Product.t) (path : ProductPath) (to : Product.t) : Product.t :=
  match path with
  | P_likesCount => Product.set_likesCount (Product.likesCount from) to
  | P_viewsCount => Product.set_viewsCount (Product.viewsCount from) to
  end.

(** [doc.save()] on a loaded product: the modified paths of the in-memory
    document are written to the stored one, whatever it holds by then, and
    [updatedAt] is stamped; nothing is sent when no path is modified. The
    result is the in-memory document after the save. *)
Definition save_product (doc : Product.t) (modified : list ProductPath) (now : Z)
    (st : Store) : Store * Result Product.t :=
  match modified with
  | [] => (st, Ok doc)
  | _ =>
      match product_by_id (Product._id doc) st with
      | None => (st, Err DocumentNotFoundError)
      | Some stored =>
          let stored' := Product.set_updatedAt now (fold_right (copy_path doc) stored modified) in
          (with_products (replace_product (Product._id doc) stored' (products st)) st,
           Ok (Product.set_updatedAt now doc))
      end
  end.

(** [user.save()] after [likedProducts] was changed in memory. *)
Definition save_user (doc : User.t) (st : Store) : Store * Result User.t :=
  match user_by_id (User._id doc) st with
  | None => (st, Err DocumentNotFoundError)
  | Some stored =>
      (with_users (replace_user (User._id doc)
                     (User.set_likedProducts (User.likedProducts doc) stored) (users st)) st,
       Ok doc)
  end.

Definition opt_check {A} (o : option A) (f : A -> list string) : list string :=
  match o with Some a => f a | None => [] end.

(** The update validators ([runValidators: true]): the validators of each
    path that the update sets, on the value after the setters. *)
Definition update_errors (u : Updates) : list string :=
  opt_check (upd_pname u) (fun s => Product.check_pname (trim s)) ++
  opt_check (upd_pdesc u) (fun s => Product.check_pdesc (trim s)) ++
  opt_check (upd_price u) (fun q => Product.check_price (Fin q)) ++
  opt_check (upd_category u) (fun s => Product.check_category (trim s)) ++
  opt_check (upd_coordinates u) (fun l => Product.check_coordinates (map Fin l)) ++
  opt_check (upd_status u) (Product.check_enum Product.statuses "status") ++
  opt_check (upd_condition u) (Product.check_enum Product.conditions "condition").

Definition or_else {A} (o : option A) (d : A) : A :=
  match o with Some a => a | None => d end.

Definition apply_updates (now : Z) (u : Updates) (p : Product.t) : Product.t :=
  {| Product._id := Product._id p;
     Product.pname := or_else (option_map trim (upd_pname u)) (Product.pname p);
     Product.pdesc := or_else (option_map trim (upd_pdesc u)) (Product.pdesc p);
     Product.price := or_else (option_map Fin (upd_price u)) (Product.price p);
     Product.category := or_else (option_map trim (upd_category u)) (Product.category p);
     Product.pimage := Product.pimage p;
     Product.pimage2 := Product.pimage2 p;
     Product.addedBy := Product.addedBy p;
     Product.coordinates :=
       or_else (option_map (map Fin) (upd_coordinates u)) (Product.coordinates p);
     Product.status := or_else (upd_status u) (Product.status p);
     Product.condition := or_else (upd_condition u) (Product.condition p);
     Product.likesCount := or_else (upd_likesCount u) (Product.likesCount p);
     Product.viewsCount := or_else (upd_viewsCount u) (Product.viewsCount p);
     Product.createdAt := Product.createdAt p;
     Product.updatedAt := now |}.

(** [Product.findByIdAndUpdate(id, u, { new: true, runValidators: true })]. *)
Definition findByIdAndUpdate (id : JsVal) (u : Updates) (now : Z) (st : Store)
    : Store * Result (option Product.t) :=
  match cast_id E id with
  | Err e => (st, Err e)
  | Ok None => (st, Ok None)
  | Ok (Some o) =>
      match update_errors u with
      | [] =>
          match product_by_id o st with
          | None => (st, Ok None)
          | Some p =>
              let p' := apply_updates now u p in
              (with_products (replace_product o p' (products st)) st, Ok (Some p'))
          end
      | msgs => (st, Err (ValidationError msgs))
      end
  end.

Fixpoint remove_product (o : ObjectId) (l : list Product.t) : list Product.t :=
  match l with
  | [] => []
  | p :: r => if ObjectId_eqb (Product._id p) o then r else p :: remove_product o r
  end.

(** [Product.findByIdAndDelete(id)]. *)
Definition findByIdAndDelete (id : JsVal) (st : Store) : Store * Result (option Product.t) :=
  match cast_id E id with
  | Err e => (st, Err e)
  | Ok None => (st, Ok None)
  | Ok (Some o) =>
      match product_by_id o st with
      | None => (st, Ok None)
      | Some p => (with_products (remove_product o (products st)) st, Ok (Some p))
      end
  end.

End WithEnv.

End Writes.

(** ** Handlers as programs over the database *)

(** One awaited model call. *)
Inductive DbOp : Type -> Type :=
| User_findById (id : JsVal) : DbOp (option User.t)
| User_save (doc : User.t) : DbOp User.t
| Product_findById (id : JsVal) : DbOp (option Product.t)
| Product_create (oid : ObjectId) (now : Z) (d : ProductData) : DbOp Product.t
| Product_save (doc : Product.t) (modified : list ProductPath) (now : Z) : DbOp Product.t
| Product_find (q : Query) (s : option SortSpec) (skip limit : option JsInt)
    : DbOp (list Product.t)
| Product_countDocuments (q : Query) : DbOp nat
| Product_findByIdAndUpdate (id : JsVal) (u : Updates) (now : Z) : DbOp (option Product.t)
| Product_findByIdAndDelete (id : JsVal) : DbOp (option Product.t).

(** The effect of one operation on the store, and its outcome. *)
Definition exec (E : Env) {X : Type} (op : DbOp X) (st : Store) : Store * Result X :=
  match op in DbOp T return Store * Result T with
  | User_findById id => (st, Mongo.findUserById E id st)
  | User_save doc => Writes.save_user doc st
  | Product_findById id => (st, Mongo.findProductById E id st)
  | Product_create oid now d => Writes.create_product E oid now d st
  | Product_save doc modified now => Writes.save_product doc modified now st
  | Product_find q s skip limit => (st, Mongo.find_products E q s skip limit st)
  | Product_countDocuments q => (st, Mongo.count_products E q st)
  | Product_findByIdAndUpdate id u now => Writes.findByIdAndUpdate E id u now st
  | Product_findByIdAndDelete id => Writes.findByIdAndDelete E id st
  end.

(** A handler body: it returns, throws, or awaits an operation and goes on
    with its outcome. *)
Inductive Prog (A : Type) : Type :=
| Ret (a : A)
| Throw (e : JsError)
| Await {X : Type} (op : DbOp X) (k : Result X -> Prog A).
Arguments Ret {A} a.
Arguments Throw {A} e.
Arguments Await {A X} op k.

Fixpoint bind {A B} (m : Prog A) (f : A -> Prog B) : Prog B :=
  match m with
  | Ret a => f a
  | Throw e => Throw e
  | Await op k => Await op (fun r => bind (k r) f)
  end.

(** [await op]: a rejected promise throws. *)
Definition await {X} (op : DbOp X) : Prog X :=
  Await op (fun r => match r with Ok x => Ret x | Err e => Throw e end).

(** [try { m } catch (error) { h error }]. *)
Fixpoint try_catch {A} (m : Prog A) (h : JsError -> Prog A) : Prog A :=
  match m with
  | Ret a => Ret a
  | Throw e => h e
  | Await op k => Await op (fun r => try_catch (k r) h)
  end.

Notation "x <- m ;; k" := (bind m (fun x => k))
  (at level 61, m at next level, right associativity).
Notation "m ;;; k" := (bind m (fun _ => k))
  (at level 61, right associativity).

(** Running a program alone, from start to end. *)
Fixpoint run (E : Env) {A} (m : Prog A) (st : Store) : Store * Result A :=
  match m with
  | Ret a => (st, Ok a)
  | Throw e => (st, Err e)
  | Await op k => let (st', r) := exec E op st in run E (k r) st'
  end.

(** One step of a program: its next operation, if it has one. *)
Definition step (E : Env) {A} (m : Prog A) (st : Store) : Store * Prog A :=
  match m with
  | Await op k => let (st', r) := exec E op st in (st', k r)
  | _ => (st, m)
  end.

(** Two requests in flight: the schedule says which of them performs its
    next operation; when it is used up the first request runs to its end,
    then the second. *)
Fixpoint interleave (E : Env) {A B} (schedule : list bool) (m1 : Prog A) (m2 : Prog B)
    (st : Store) : Store * Result A * Result B :=
  match schedule with
  | [] =>
      let (st1, r1) := run E m1 st in
      let (st2, r2) := run E m2 st1 in
      (st2, r1, r2)
  | true :: rest => let (st', m1') := step E m1 st in interleave E rest m1' m2 st'
  | false :: rest => let (st', m2') := step E m2 st in interleave E rest m1 m2' st'
  end.

(** ** Requests and responses *)

Record Pagination : Type := {
  currentPage : JsInt;
  totalPages : JsNum;
  totalProducts : nat;
  hasNext : bool;
  hasPrev : bool
}.

(** The [data] member of the JSON envelope. *)
Inductive Data : Type :=
| NoData
| DProduct (product : option Product.t)
| DPage (page_products : list Product.t) (pagination : Pagination)
| DSearch (found : list Product.t) (searchTerm : string)
    (latitude longitude : JsNum) (resultsCount : nat)
| DLiked (isLiked : bool)
| DErrors (errors : list string).

(** A response: HTTP status and envelope. The member [error] of a 500
    response, which depends on the deployment mode, is left out, and
    populated references are shown as their ids. *)
Record Response : Type := {
  status_code : nat;
  success : bool;
  message : string;
  data : Data
}.

Definition respond (code : nat) (ok : bool) (msg : string) (d : Data) : Response :=
  {| status_code := code; success := ok; message := msg; data := d |}.

Definition internal_error : Response := respond 500 false "Internal server error" NoData.

(** The error taxonomy, by transport status. *)
Inductive ErrorKind : Type :=
| KValidationError
| KUnauthenticated
| KForbidden
| KNotFound
| KInternal.

Definition kind_of (r : Response) : option ErrorKind :=
  match status_code r with
  | 400%nat => Some KValidationError
  | 401%nat => Some KUnauthenticated
  | 403%nat => Some KForbidden
  | 404%nat => Some KNotFound
  | 500%nat => Some KInternal
  | _ => None
  end.

(** [req.user] as set by the authentication middleware. *)
Record ReqUser : Type := {
  userId : JsVal;
  req_username : string;
  req_email : string
}.

(** The query string of a GET request: every parameter is absent or a
    string. *)
Record QueryParams : Type := {
  catName : option string;
  page : option string;
  limit : option string;
  status : option string;
  minPrice : option string;
  maxPrice : option string;
  sortBy : option string;
  search : option string;
  loc : option string;
  category : option string;
  maxDistance : option string
}.

(** The JSON body of an update: the protected keys, when present, and the
    settable paths. *)
Record UpdateBody : Type := {
  body__id : option JsVal;
  body_addedBy : option JsVal;
  body_createdAt : option JsVal;
  body_updatedAt : option JsVal;
  body_paths : Updates
}.

(** The form fields of [addProduct] and the paths of the uploaded files. *)
Record AddBody : Type := {
  add_pname : option string;
  add_pdesc : option string;
  add_price : option string;
  add_category : option string;
  add_plat : option string;
  add_plong : option string;
  add_condition : option string;
  files_pimage : list string;
  files_pimage2 : list string
}.

(** The outcome of a middleware: it answers, or it calls [next()]. *)
Inductive Next (A : Type) : Type :=
| Responded (r : Response)
| Continue (a : A).
Arguments Responded {A} r.
Arguments Continue {A} a.

(** ** models/Product.js: instance methods *)

(** [this.viewsCount += 1; return this.save();] *)
Definition incrementViews (now : Z) (p : Product.t) : Prog Product.t :=
  await (Product_save (Product.set_viewsCount (Product.viewsCount p + 1) p) [P_viewsCount] now).

(** [this.likesCount += 1; return this.save();] *)
Definition incrementLikes (now : Z) (p : Product.t) : Prog Product.t :=
  await (Product_save (Product.set_likesCount (Product.likesCount p + 1) p) [P_likesCount] now).

(** [if (this.likesCount > 0) { this.likesCount -= 1; } return this.save();] *)
Definition decrementLikes (now : Z) (p : Product.t) : Prog Product.t :=
  if 0 <? Product.likesCount p
  then await (Product_save (Product.set_likesCount (Product.likesCount p - 1) p) [P_likesCount] now)
  else await (Product_save p [] now).

(** ** middleware/auth.js *)

Section Handlers.

Variable E : Env.

(** [authHeader && authHeader.split(' ')[1]], when truthy. *)
Definition bearer_token (authorization : option string) : option string :=
  match authorization with
  | None => None
  | Some "" => None
  | Some h =>
      match split " " h with
      | _ :: t :: _ => if String.eqb t "" then None else Some t
      | _ => None
      end
  end.

Definition authenticateToken (authorization : option string) : Prog (Next ReqUser) :=
  match bearer_token authorization with
  | None => Ret (Responded (respond 401 false "Access token is required" NoData))
  | Some token =>
      match jwt_verify E token with
      | JwtInvalid => Ret (Responded (respond 401 false "Invalid token" NoData))
      | JwtExpired => Ret (Responded (respond 401 false "Token has expired" NoData))
      | JwtDecoded uid =>
          try_catch
            (user <- await (User_findById uid) ;;
             match user with
             | None => Ret (Responded (respond 401 false "User not found" NoData))
             | Some u =>
                 if negb (User.isActive u)
                 then Ret (Responded (respond 401 false "User account is deactivated" NoData))
                 else Ret (Continue {| userId := JObjectId (User._id u);
                                       req_username := User.username u;
                                       req_email := User.email u |})
             end)
            (fun _ => Ret (Responded (respond 500 false "Authentication failed" NoData)))
      end
  end.

(** ** controllers/productController.js *)

Definition truthy (o : option string) : option string :=
  match o with
  | Some "" => None
  | other => other
  end.

(** [parseFloat(field)] for a form field that may be absent:
    [parseFloat(undefined)] is NaN. *)
Definition form_number (field : option string) : JsNum :=
  match field with
  | Some s => JsNumber.parseFloat s
  | None => NaN
  end.

Definition addProduct (oid : ObjectId) (now : Z) (user : option ReqUser) (body : AddBody)
    : Prog Response :=
  try_catch
    (match user with
     | None => Throw TypeError
     | Some u =>
         match files_pimage body with
         | [] => Ret (respond 400 false "Primary product image is required" NoData)
         | image :: _ =>
             let productData :=
               {| d_pname := add_pname body;
                  d_pdesc := add_pdesc body;
                  d_price := form_number (add_price body);
                  d_category := add_category body;
                  d_pimage := image;
                  d_pimage2 := hd_error (files_pimage2 body);
                  d_addedBy := userId u;
                  d_condition := Writes.or_else (add_condition body) "good";
                  d_coordinates :=
                    [form_number (add_plong body); form_number (add_plat body)] |} in
             savedProduct <- await (Product_create oid now productData) ;;
             Ret (respond 201 true "Product added successfully" (DProduct (Some savedProduct)))
         end
     end)
    (fun error =>
       match error with
       | ValidationError errors => Ret (respond 400 false "Validation failed" (DErrors errors))
       | _ => Ret internal_error
       end).

Definition int_param (o : option string) (default : Z) : JsInt :=
  match o with
  | None => Some default
  | Some s => JsNumber.parseInt s
  end.

Definition int_mul (a b : JsInt) : JsInt :=
  match a, b with Some x, Some y => Some (x * y) | _, _ => None end.

Definition int_sub (a b : JsInt) : JsInt :=
  match a, b with Some x, Some y => Some (x - y) | _, _ => None end.

(** [Math.ceil(total / limit)]. *)
Definition ceil_div (total : nat) (limit : JsInt) : JsNum :=
  match limit with
  | None => NaN
  | Some 0 => match total with O => NaN | _ => Inf false end
  | Some l => JsNumber.of_Z (- ((- Z.of_nat total) / l))
  end.

Definition getProducts (q : QueryParams) : Prog Response :=
  try_catch
    (let status_ := Writes.or_else (status q) "active" in
     let query :=
       {| q_status := Some status_;
          q_category := truthy (catName q);
          q_price_gte := option_map JsNumber.parseFloat (truthy (minPrice q));
          q_price_lte := option_map JsNumber.parseFloat (truthy (maxPrice q));
          q_or_regex := None;
          q_near := None |} in
     let sortOptions :=
       match sortBy q with
       | Some "price-asc" => PriceAsc
       | Some "price-desc" => PriceDesc
       | _ => CreatedAtDesc
       end in
     let page_ := int_param (page q) 1 in
     let limit_ := int_param (limit q) 20 in
     let skip := int_mul (int_sub page_ (Some 1)) limit_ in
     products <- await (Product_find query (Some sortOptions) (Some skip) (Some limit_)) ;;
     totalProducts <- await (Product_countDocuments query) ;;
     Ret (respond 200 true "Products retrieved successfully"
            (DPage products
               {| currentPage := page_;
                  totalPages := ceil_div totalProducts limit_;
                  totalProducts := totalProducts;
                  hasNext :=
                    match skip with
                    | Some s => s + Z.of_nat (List.length products) <? Z.of_nat totalProducts
                    | None => false
                    end;
                  hasPrev := match page_ with Some p => 1 <? p | None => false end |})))
    (fun _ => Ret internal_error).

Definition getProductById (now : Z) (productId : string) : Prog Response :=
  try_catch
    (product <- await (Product_findById (JString productId)) ;;
     match product with
     | None => Ret (respond 404 false "Product not found" NoData)
     | Some p =>
         p' <- incrementViews now p ;;
         Ret (respond 200 true "Product retrieved successfully" (DProduct (Some p')))
     end)
    (fun error =>
       match error with
       | CastError => Ret (respond 400 false "Invalid product ID" NoData)
       | _ => Ret internal_error
       end).

(** [loc.split(',').map(coord => parseFloat(coord.trim()))], destructured
    as [[latitude, longitude]]; a missing second piece leaves [longitude]
    undefined, which the geospatial query refuses like NaN. *)
Definition parse_loc (s : string) : JsNum * JsNum :=
  match map (fun coord => JsNumber.parseFloat (trim coord)) (split "," s) with
  | lat :: lon :: _ => (lat, lon)
  | [lat] => (lat, NaN)
  | [] => (NaN, NaN)
  end.

(** [maxDistance * 1000], with the default [maxDistance = 50]: the radius
    in metres. *)
Definition search_radius (q : QueryParams) : JsNum :=
  JsNumber.mul
    match maxDistance q with
    | None => JsNumber.of_Z 50
    | Some s => JsNumber.toNumber s
    end
    (JsNumber.of_Z 1000).

(** The filter document [query] of [searchProducts]. *)
Definition search_filter (q : QueryParams) (search_ : string) (latitude_ longitude_ : JsNum)
    : Query :=
  {| q_status := Some "active";
     q_category := truthy (category q);
     q_price_gte := None;
     q_price_lte := None;
     q_or_regex := Some search_;
     q_near := Some {| near_lon := longitude_;
                       near_lat := latitude_;
                       near_max := search_radius q |} |}.

Definition searchProducts (q : QueryParams) : Prog Response :=
  try_catch
    (match loc q with
     | None => Throw TypeError
     | Some loc_ =>
         let (latitude_, longitude_) := parse_loc loc_ in
         match search q with
         | None => Throw MongoServerError
         | Some search_ =>
             let query := search_filter q search_ latitude_ longitude_ in
             products <- await (Product_find query (Some CreatedAtDesc) None None) ;;
             Ret (respond 200 true "Search completed successfully"
                    (DSearch products search_ latitude_ longitude_ (List.length products)))
         end
     end)
    (fun _ => Ret internal_error).

(** [req.user?.userId]. *)
Definition optional_userId (user : option ReqUser) : JsVal :=
  match user with Some u => userId u | None => JUndefined end.

(** [delete updates._id; delete updates.addedBy; delete updates.createdAt;
    delete updates.updatedAt;]: what is left of the body. *)
Definition strip_protected (body : UpdateBody) : Updates := body_paths body.

Definition updateProduct (now : Z) (productId : string) (user : option ReqUser)
    (body : UpdateBody) : Prog Response :=
  try_catch
    (let userId_ := optional_userId user in
     product <- await (Product_findById (JString productId)) ;;
     match product with
     | None => Ret (respond 404 false "Product not found" NoData)
     | Some p =>
         if string_strict_neq (oid_hex (Product.addedBy p)) userId_
         then Ret (respond 403 false "You can only update your own products" NoData)
         else
           let updates := strip_protected body in
           updatedProduct <- await (Product_findByIdAndUpdate (JString productId) updates now) ;;
           Ret (respond 200 true "Product updated successfully" (DProduct updatedProduct))
     end)
    (fun _ => Ret internal_error).

Definition deleteProduct (productId : string) (user : option ReqUser) : Prog Response :=
  try_catch
    (let userId_ := optional_userId user in
     product <- await (Product_findById (JString productId)) ;;
     match product with
     | None => Ret (respond 404 false "Product not found" NoData)
     | Some p =>
         if string_strict_neq (oid_hex (Product.addedBy p)) userId_
         then Ret (respond 403 false "You can only delete your own products" NoData)
         else
           await (Product_findByIdAndDelete (JString productId)) ;;;
           Ret (respond 200 true "Product deleted successfully" NoData)
     end)
    (fun _ => Ret internal_error).

(** ** controllers/userController.js *)

(** [user.likedProducts.includes(productId)]: the array compares the
    text of each id with the argument. *)
Definition liked_includes (l : list ObjectId) (v : JsVal) : bool :=
  match v with
  | JString s => existsb (fun o => String.eqb s (oid_hex o)) l
  | JObjectId x => existsb (ObjectId_eqb x) l
  | JUndefined => false
  end.

(** [user.likedProducts.pull(id)]: every occurrence goes. In the handler
    the argument is [productId], which casts to the id of the product that
    [findById(productId)] returned. *)
Definition liked_pull (o : ObjectId) (l : list ObjectId) : list ObjectId :=
  filter (fun x => negb (ObjectId_eqb x o)) l.

(** [user.likedProducts.push(id)]. *)
Definition liked_push (o : ObjectId) (l : list ObjectId) : list ObjectId := l ++ [o].

Definition likeProducts (now : Z) (user : option ReqUser) (productId : JsVal)
    : Prog Response :=
  try_catch
    (match user with
     | None => Throw TypeError
     | Some ru =>
         user_ <- await (User_findById (userId ru)) ;;
         product <- await (Product_findById productId) ;;
         match user_, product with
         | None, _ => Ret (respond 404 false "User not found" NoData)
         | Some _, None => Ret (respond 404 false "Product not found" NoData)
         | Some u, Some p =>
             let isLiked_ := liked_includes (User.likedProducts u) productId in
             if isLiked_ then
               let u' := User.set_likedProducts
                           (liked_pull (Product._id p) (User.likedProducts u)) u in
               decrementLikes now p ;;;
               await (User_save u') ;;;
               Ret (respond 200 true "Product unliked successfully" (DLiked false))
             else
               let u' := User.set_likedProducts
                           (liked_push (Product._id p) (User.likedProducts u)) u in
               incrementLikes now p ;;;
               await (User_save u') ;;;
               Ret (respond 200 true "Product liked successfully" (DLiked true))
         end
     end)
    (fun _ => Ret internal_error).

End Handlers.

(** ** lib/validations.js and the routes of index.js *)

(** [/^-?\d+\.?\d*/] at the start of [s]: the rest after the match. The
    classes of the pattern are disjoint, so the longest match is the only
    one that can be followed by a comma or by the end. *)
Definition take_number (s : string) : option string :=
  let r0 := match s with String "-" r => r | _ => s end in
  let (ds, r1) := span is_digit r0 in
  match ds with
  | EmptyString => None
  | _ =>
      let r2 := match r1 with String "." r => r | _ => r1 end in
      Some (snd (span is_digit r2))
  end.

(** [/^-?\d+\.?\d*,-?\d+\.?\d*$/.test(s)]. *)
Definition loc_format (s : string) : bool :=
  match take_number s with
  | Some (String "," r) =>
      match take_number r with
      | Some EmptyString => true
      | _ => false
      end
  | _ => false
  end.

(** [searchSchema]: the issues it raises on a query string, none when it
    accepts. *)
Definition searchSchema (q : QueryParams) : list string :=
  match search q with
  | None => ["Required"]
  | Some s =>
      (if Nat.ltb (String.length s) 1 then ["Search term is required"] else []) ++
      (if Nat.ltb 100 (String.length s) then ["Search term too long"] else [])
  end ++
  match loc q with
  | None => ["Required"]
  | Some s => if loc_format s then [] else ["Invalid location format"]
  end ++
  match category q with
  | None => []
  | Some c => if Product.in_enum Product.categories c then [] else ["Invalid enum value"]
  end ++
  match maxDistance q with
  | None => []
  | Some v =>
      match JsNumber.parseInt v with
      | Some n =>
          if ((0 <? n) && (n <=? 1000))%bool then []
          else ["Max distance must be a number between 1 and 1000"]
      | None => ["Max distance must be a number between 1 and 1000"]
      end
  end.

(** Modelled from the spec: [middleware/zodValidation.js], which index.js
    applies as [validate(schema)], is not among the sources. Following the
    schema-validation layer of the specification, it rejects with a
    validation response (400) a request on which the schema raises an
    issue, before the handler runs, and passes any other request on
    unchanged. *)
Definition validate {A} (schema : A -> list string) (req : A) : Next A :=
  match schema req with
  | [] => Continue req
  | issues => Responded (respond 400 false "Validation failed" (DErrors issues))
  end.

Section Routes.

Variable E : Env.

(** [app.get('/api/products', productController.getProducts)] *)
Definition GET_products (q : QueryParams) : Prog Response := getProducts q.

(** [app.get('/api/products/search', validate(searchSchema),
    productController.searchProducts)] *)
Definition GET_products_search (q : QueryParams) : Prog Response :=
  match validate searchSchema q with
  | Responded r => Ret r
  | Continue q' => searchProducts q'
  end.

(** [app.get('/api/products/:productId', productController.getProductById)] *)
Definition GET_product (now : Z) (productId : string) : Prog Response :=
  getProductById now productId.

(** [app.put('/api/products/:productId', authenticateToken,
    productController.updateProduct)] *)
Definition PUT_product (now : Z) (authorization : option string) (productId : string)
    (body : UpdateBody) : Prog Response :=
  n <- authenticateToken E authorization ;;
  match n with
  | Responded r => Ret r
  | Continue u => updateProduct now productId (Some u) body
  end.

(** [app.delete('/api/products/:productId', authenticateToken,
    productController.deleteProduct)] *)
Definition DELETE_product (authorization : option string) (productId : string)
    : Prog Response :=
  n <- authenticateToken E authorization ;;
  match n with
  | Responded r => Ret r
  | Continue u => deleteProduct productId (Some u)
  end.

(** [app.post('/api/like-product', authenticateToken, userController.likeProducts)] *)
Definition POST_like_product (now : Z) (authorization : option string) (productId : JsVal)
    : Prog Response :=
  n <- authenticateToken E authorization ;;
  match n with
  | Responded r => Ret r
  | Continue u => likeProducts now (Some u) productId
  end.

(** A request served alone: the store afterwards and the response. A
    handler catches what its body throws; the application's last error
    middleware answers anything else with 500. *)
Definition serve (m : Prog Response) (st : Store) : Store * Response :=
  match run E m st with
  | (st', Ok r) => (st', r)
  | (st', Err _) => (st', respond 500 false "Internal server error" NoData)
  end.

End Routes.

(** ** A concrete environment and catalogue for the examples *)

Module Demo.

(** Tokens that are the text of an ObjectId decode to it; ["expired"] has
    expired; anything else is not a token. *)
Definition jwt (token : string) : JwtResult :=
  if String.eqb token "expired" then JwtExpired
  else if isObjectIdString token then JwtDecoded (JString token)
  else JwtInvalid.

Definition is_plain (c : ascii) : bool :=
  (is_digit c || is_upper c || is_lower c || is_space c)%bool.

(** Patterns of letters, digits and spaces denote themselves: they match
    the texts that contain them, whatever the case. The examples use only
    such patterns. *)
Definition regex (pattern : string) : option (string -> bool) :=
  if all_chars is_plain pattern
  then Some (fun text => includes (toLowerCase pattern) (toLowerCase text))
  else None.

(** Metres per degree of arc on a sphere of radius 6378.1 km. Between
    two points of one meridian the great-circle distance is this times
    the difference of latitude; the examples use such points. *)
Definition metres_per_degree : Q := 111319 # 1.

Definition distance (a b : Position) : Q :=
  (Qabs (fst a - fst b) + Qabs (snd a - snd b)) * metres_per_degree.

Definition env : Env :=
  {| jwt_verify := jwt; cast_object_id := castObjectId; regex_i := regex;
     geo_distance := distance |}.

Definition alice_id : ObjectId := {| oid_hex := "650000000000000000000a11" |}.
Definition bob_id : ObjectId := {| oid_hex := "650000000000000000000b22" |}.
Definition camera_id : ObjectId := {| oid_hex := "65f000000000000000000001" |}.
Definition compact_id : ObjectId := {| oid_hex := "65f000000000000000000002" |}.

Definition alice : User.t :=
  {| User._id := alice_id; User.username := "alice"; User.email := "alice@example.com";
     User.isActive := true; User.likedProducts := [] |}.

Definition bob : User.t :=
  {| User._id := bob_id; User.username := "bob"; User.email := "bob@example.com";
     User.isActive := true; User.likedProducts := [] |}.

(** Alice's camera, listed first, at (77.209, 28.6139). *)
Definition camera : Product.t :=
  {| Product._id := camera_id;
     Product.pname := "Vintage Camera";
     Product.pdesc := "A classic camera in great condition.";
     Product.price := Fin (150 # 1);
     Product.category := "Electronics";
     Product.pimage := "uploads/pimage-1";
     Product.pimage2 := None;
     Product.addedBy := alice_id;
     Product.coordinates := [Fin (77209 # 1000); Fin (286139 # 10000)];
     Product.status := "active";
     Product.condition := "good";
     Product.likesCount := 0;
     Product.viewsCount := 0;
     Product.createdAt := 1000;
     Product.updatedAt := 1000 |}.

(** Bob's camera, listed later, a tenth of a degree further north. *)
Definition compact : Product.t :=
  {| Product._id := compact_id;
     Product.pname := "Compact camera";
     Product.pdesc := "Pocket size, with charger.";
     Product.price := Fin (200 # 1);
     Product.category := "Electronics";
     Product.pimage := "uploads/pimage-2";
     Product.pimage2 := None;
     Product.addedBy := bob_id;
     Product.coordinates := [Fin (77209 # 1000); Fin (287139 # 10000)];
     Product.status := "active";
     Product.condition := "good";
     Product.likesCount := 0;
     Product.viewsCount := 0;
     Product.createdAt := 2000;
     Product.updatedAt := 2000 |}.

Definition store : Store := {| products := [camera; compact]; users := [alice; bob] |}.

Definition digit (n : nat) : ascii := ascii_of_nat (48 + Nat.modulo n 10).

(** The [i]-th listing of a catalogue of cameras: ids and creation times
    follow the rank. *)
Definition listing (i : nat) : Product.t :=
  {| Product._id :=
       {| oid_hex := "65f00000000000000000a" ++
                     String (digit (Nat.div i 100))
                       (String (digit (Nat.div i 10)) (String (digit i) "")) |};
     Product.pname := "Vintage Camera";
     Product.pdesc := "A classic camera in great condition.";
     Product.price := Fin (150 # 1);
     Product.category := "Electronics";
     Product.pimage := "uploads/pimage-1";
     Product.pimage2 := None;
     Product.addedBy := alice_id;
     Product.coordinates := [Fin (77209 # 1000); Fin (286139 # 10000)];
     Product.status := "active";
     Product.condition := "good";
     Product.likesCount := 0;
     Product.viewsCount := 0;
     Product.createdAt := 1000 + Z.of_nat i;
     Product.updatedAt := 1000 + Z.of_nat i |}.

Definition catalogue (n : nat) : Store :=
  {| products := map listing (seq 0 n); users := [alice; bob] |}.

Definition search_for (keyword location : string) : QueryParams :=
  {| catName := None; page := None; limit := None; status := None; minPrice := None;
     maxPrice := None; sortBy := None; search := Some keyword; loc := Some location;
     category := None; maxDistance := None |}.

Definition browse (page_ limit_ : option string) : QueryParams :=
  {| catName := None; page := page_; limit := limit_; status := None; minPrice := None;
     maxPrice := None; sortBy := None; search := None; loc := None; category := None;
     maxDistance := None |}.

Definition no_updates : Updates :=
  {| upd_pname := None; upd_pdesc := None; upd_price := None; upd_category := None;
     upd_status := None; upd_condition := None; upd_coordinates := None;
     upd_likesCount := None; upd_viewsCount := None |}.

Definition body_of (u : Updates) : UpdateBody :=
  {| body__id := None; body_addedBy := None; body_createdAt := None;
     body_updatedAt := None; body_paths := u |}.

End Demo.

(** * Further code of the back end *)

(** ** middleware/auth.js: the other middlewares *)

Section MoreMiddleware.

Variable E : Env.

(** [optionalAuth]: it always calls [next()], with [req.user] set to the
    user of a valid token or to [null]. *)
Definition optionalAuth (authorization : option string) : Prog (option ReqUser) :=
  match bearer_token authorization with
  | None => Ret None
  | Some token =>
      match jwt_verify E token with
      | JwtDecoded uid =>
          try_catch
            (user <- await (User_findById uid) ;;
             match user with
             | Some u =>
                 if User.isActive u
                 then Ret (Some {| userId := JObjectId (User._id u);
                                   req_username := User.username u;
                                   req_email := User.email u |})
                 else Ret None
             | None => Ret None
             end)
            (fun _ => Ret None)
      | JwtInvalid | JwtExpired => Ret None
      end
  end.

(** [checkOwnership(Product, param)]: [resourceId] is [req.params[param]],
    undefined when the route has no such parameter. A product always has
    an owner, so [resource.addedBy &&] does not decide. *)
Definition checkOwnership (resourceId : JsVal) (user : option ReqUser)
    : Prog (Next Product.t) :=
  try_catch
    (match user with
     | None => Throw TypeError
     | Some u =>
         resource <- await (Product_findById resourceId) ;;
         match resource with
         | None => Ret (Responded (respond 404 false "Resource not found" NoData))
         | Some r =>
             if string_strict_neq (oid_hex (Product.addedBy r)) (userId u)
             then Ret (Responded
                         (respond 403 false
                            "You do not have permission to access this resource" NoData))
             else Ret (Continue r)
         end
     end)
    (fun _ => Ret (Responded internal_error)).

End MoreMiddleware.

(** ** models/Product.js: statics *)

(** The filter of [getByCategory(category)]. *)
Definition category_filter (category_ : string) : Query :=
  {| q_status := Some "active";
     q_category := Some category_;
     q_price_gte := None;
     q_price_lte := None;
     q_or_regex := None;
     q_near := None |}.

(** [Product.getByCategory(category)], continued by the caller with
    [skip] and [limit]. *)
Definition getByCategory (category_ : string) (skip limit_ : option JsInt)
    : Prog (list Product.t) :=
  await (Product_find (category_filter category_) (Some CreatedAtDesc) skip limit_).

(** [Product.findByLocation(longitude, latitude, maxDistance = 50000)]:
    the distance is in metres. *)
Definition findByLocation (longitude_ latitude_ : JsNum) (maxDistance_ : option JsNum)
    : Prog (list Product.t) :=
  await
    (Product_find
       {| q_status := Some "active";
          q_category := None;
          q_price_gte := None;
          q_price_lte := None;
          q_or_regex := None;
          q_near := Some {| near_lon := longitude_;
                            near_lat := latitude_;
                            near_max := Writes.or_else maxDistance_ (JsNumber.of_Z 50000) |} |}
       None None None).

(** ** controllers/productController.js: listing by category *)

(** The [data] of the category listing: its pagination has no [hasNext]
    and no [hasPrev]. *)
Record CategoryPage : Type := {
  cat_products : list Product.t;
  cat_category : string;
  cat_currentPage : JsInt;
  cat_totalPages : JsNum;
  cat_totalProducts : nat
}.

(** A response whose [data], when present, has the shape [D]. *)
Record Reply (D : Type) : Type := {
  reply_status : nat;
  reply_success : bool;
  reply_message : string;
  reply_data : option D
}.
Arguments reply_status {D} r.
Arguments reply_success {D} r.
Arguments reply_message {D} r.
Arguments reply_data {D} r.

Definition getProductsByCategory (category_ : string) (q : QueryParams)
    : Prog (Reply CategoryPage) :=
  try_catch
    (let page_ := int_param (page q) 1 in
     let limit_ := int_param (limit q) 20 in
     let skip := int_mul (int_sub page_ (Some 1)) limit_ in
     products <- getByCategory category_ (Some skip) (Some limit_) ;;
     totalProducts <- await (Product_countDocuments (category_filter category_)) ;;
     Ret {| reply_status := 200;
            reply_success := true;
            reply_message :=
              "Products in " ++ category_ ++ " category retrieved successfully";
            reply_data :=
              Some {| cat_products := products;
                      cat_category := category_;
                      cat_currentPage := page_;
                      cat_totalPages := ceil_div totalProducts limit_;
                      cat_totalProducts := totalProducts |} |})
    (fun _ => Ret {| reply_status := 500; reply_success := false;
                     reply_message := "Internal server error"; reply_data := None |}).

(** ** models/User.js: lookup by email or user name *)

(** [User.findByEmailOrUsername(identifier)]: the first user whose email
    is the identifier in lower case or whose user name is the identifier
    as given. *)
Definition findByEmailOrUsername (identifier : string) (st : Store) : option User.t :=
  List.find
    (fun u => (String.eqb (User.email u) (toLowerCase identifier) ||
               String.eqb (User.username u) identifier)%bool)
    (users st).

(** ** controllers/userController.js: the liked products *)

(** [populate('likedProducts')]: each id of the list is replaced by its
    product, in the order of the list; an id that no product has is
    dropped. *)
Definition populate_liked (u : User.t) (st : Store) : list Product.t :=
  flat_map
    (fun o => match Mongo.product_by_id o st with Some p => [p] | None => [] end)
    (User.likedProducts u).

(** [likedProducts]: it only reads. *)
Definition likedProducts (E : Env) (user : option ReqUser) (st : Store)
    : Reply (list Product.t) :=
  let failed :=
    {| reply_status := 500; reply_success := false;
       reply_message := "Internal server error"; reply_data := None |} in
  match user with
  | None => failed
  | Some ru =>
      match Mongo.findUserById E (userId ru) st with
      | Err _ => failed
      | Ok None =>
          {| reply_status := 404; reply_success := false;
             reply_message := "User not found"; reply_data := None |}
      | Ok (Some u) =>
          {| reply_status := 200; reply_success := true;
             reply_message := "Liked products retrieved successfully";
             reply_data := Some (populate_liked u st) |}
      end
  end.

(** ** The products of a user *)

Module ProductStatics.

(** [Product.getUserProducts(userId)]: the filter [{ addedBy: userId }]
    casts [userId] to an ObjectId ([undefined] selects nothing, a string
    that is not an id is refused); the products come newest first,
    whatever their status. *)
Definition getUserProducts (E : Env) (userId_ : JsVal) (st : Store)
    : Result (list Product.t) :=
  match Mongo.cast_id E userId_ with
  | Err e => Err e
  | Ok None => Ok []
  | Ok (Some o) =>
      Ok (Mongo.sort_by (Mongo.sort_leb CreatedAtDesc)
            (filter (fun p => ObjectId_eqb (Product.addedBy p) o) (products st)))
  end.

End ProductStatics.

(** [getUserProducts] of the product controller: it only reads. *)
Definition getUserProducts (E : Env) (user : option ReqUser) (st : Store)
    : Reply (list Product.t) :=
  let failed :=
    {| reply_status := 500; reply_success := false;
       reply_message := "Internal server error"; reply_data := None |} in
  match user with
  | None => failed
  | Some ru =>
      match ProductStatics.getUserProducts E (userId ru) st with
      | Err _ => failed
      | Ok products_ =>
          {| reply_status := 200; reply_success := true;
             reply_message := "User products retrieved successfully";
             reply_data := Some products_ |}
      end
  end.

(** ** controllers/authController.js: the profile *)

Definition getProfile (user : option ReqUser) : Prog (Reply User.t) :=
  try_catch
    (match user with
     | None => Throw TypeError
     | Some ru =>
         user_ <- await (User_findById (userId ru)) ;;
         match user_ with
         | None =>
             Ret {| reply_status := 404; reply_success := false;
                    reply_message := "User not found"; reply_data := None |}
         | Some u =>
             Ret {| reply_status := 200; reply_success := true;
                    reply_message := "Profile retrieved successfully";
                    reply_data := Some u |}
         end
     end)
    (fun _ => Ret {| reply_status := 500; reply_success := false;
                     reply_message := "Internal server error"; reply_data := None |}).

(** [app.get('/api/auth/profile', authenticateToken, authController.getProfile)] *)
Definition GET_profile (E : Env) (authorization : option string) : Prog (Reply User.t) :=
  n <- authenticateToken E authorization ;;
  match n with
  | Responded r =>
      Ret {| reply_status := status_code r; reply_success := success r;
             reply_message := message r; reply_data := None |}
  | Continue u => getProfile (Some u)
  end.

(** ** lib/validations.js: the schema of a new product *)







(** * Vocabulary of the properties *)

(** ** Orders of a result list *)

(** Newest first: creation times never increase along the list. *)
Definition newest_first (l : list Product.t) : Prop :=
  Sorted (fun a b => Product.createdAt b <= Product.createdAt a) l.

(** Nearest first: distances from the centre never decrease along the
    list. *)
Definition nearest_first (E : Env) (centre : Position) (l : list Product.t) : Prop :=
  Sorted (fun a b => (Mongo.distance_from E centre a <= Mongo.distance_from E centre b)%Q) l.

(** ** Search *)

(** The predicate of the search filter once the engine accepts it (the
    two [true] stand for the price bounds, which a search does not set). *)
Definition search_matches (E : Env) (q : QueryParams) (m : string -> bool) (centre : Position)
    (radius : Q) (p : Product.t) : bool :=
  (String.eqb (Product.status p) "active" &&
   Mongo.opt_all (truthy (category q)) (String.eqb (Product.category p)) && true && true &&
   (m (Product.pname p) || m (Product.pdesc p) || m (Product.category p)) &&
   Mongo.within E centre (Some radius) p)%bool.

(** What [searchSchema] asks of a query string. *)
Definition search_well_formed (q : QueryParams) : Prop :=
  (exists s, search q = Some s /\ (1 <= String.length s <= 100)%nat) /\
  (exists l, loc q = Some l /\ loc_format l = true) /\
  (forall c, category q = Some c -> Product.in_enum Product.categories c = true) /\
  (forall v, maxDistance q = Some v ->
     exists n, JsNumber.parseInt v = Some n /\ 0 < n <= 1000).


(** ** Identifiers and bounds *)

(** The text of a well-formed id casts back to the id. *)
Definition well_formed_id (E : Env) (o : ObjectId) : Prop :=
  cast_object_id E (oid_hex o) = Some o.

(** The bounds of the data model, on a document. *)
Definition in_bounds (p : Product.t) : Prop :=
  JsNumber.gt (Product.price p) (JsNumber.of_Z 0) = true /\
  Product.coordinates_ok (Product.coordinates p) = true.

Definition store_in_bounds (st : Store) : Prop := Forall in_bounds (products st).

(** The bounds on the values that [addProduct] hands to the model: the
    price and the position of the record it would insert. *)
Definition insert_in_bounds (body : AddBody) : Prop :=
  JsNumber.gt (form_number (add_price body)) (JsNumber.of_Z 0) = true /\
  Product.coordinates_ok
    [form_number (add_plong body); form_number (add_plat body)] = true.

Definition demo_form (price_ : string) : AddBody :=
  {| add_pname := Some "Tripod"; add_pdesc := Some "Light tripod for travel.";
     add_price := Some price_; add_category := Some "Electronics";
     add_plat := Some "28.6139"; add_plong := Some "77.209"; add_condition := None;
     files_pimage := ["uploads/pimage-3"]; files_pimage2 := [] |}.


(** ** Stores after a like *)

(** The store after a like by [u] of [p], saved at time [now]. *)
Definition after_like (now : Z) (u : User.t) (p : Product.t) (st : Store) : Store :=
  let st1 :=
    Mongo.with_products
      (Mongo.replace_product (Product._id p)
         (Product.set_updatedAt now (Product.set_likesCount (Product.likesCount p + 1) p))
         (products st)) st in
  Mongo.with_users
    (Mongo.replace_user (User._id u)
       (User.set_likedProducts (liked_push (Product._id p) (User.likedProducts u)) u)
       (users st1)) st1.

(** The store after [u] withdraws a like of [p]. *)
Definition after_unlike (now : Z) (u : User.t) (p : Product.t) (st : Store) : Store :=
  let st1 :=
    if 0 <? Product.likesCount p then
      Mongo.with_products
        (Mongo.replace_product (Product._id p)
           (Product.set_updatedAt now (Product.set_likesCount (Product.likesCount p - 1) p))
           (products st)) st
    else st in
  Mongo.with_users
    (Mongo.replace_user (User._id u)
       (User.set_likedProducts (liked_pull (Product._id p) (User.likedProducts u)) u)
       (users st1)) st1.

(** The second half of a like, after both documents were loaded: the
    handler holds [doc] and [user'] in memory, while the store holds
    [stored] and [ustored] under their ids. *)
Definition like_writes (now : Z) (user' ustored : User.t) (doc stored : Product.t)
    (st : Store) : Store :=
  let st1 :=
    Mongo.with_products
      (Mongo.replace_product (Product._id doc)
         (Product.set_updatedAt now (Product.set_likesCount (Product.likesCount doc + 1) stored))
         (products st)) st in
  Mongo.with_users
    (Mongo.replace_user (User._id user')
       (User.set_likedProducts (User.likedProducts user') ustored) (users st1)) st1.

(** ** Requests and bodies of the examples *)

Definition alice_request : ReqUser :=
  {| userId := JObjectId Demo.alice_id; req_username := "alice";
     req_email := "alice@example.com" |}.

Definition bob_request : ReqUser :=
  {| userId := JObjectId Demo.bob_id; req_username := "bob";
     req_email := "bob@example.com" |}.


Definition price_only (q : Q) : Updates :=
  {| upd_pname := None; upd_pdesc := None; upd_price := Some q; upd_category := None;
     upd_status := None; upd_condition := None; upd_coordinates := None;
     upd_likesCount := None; upd_viewsCount := None |}.

(** Bob has liked the camera before. *)
Definition store_with_like : Store :=
  {| products := [Product.set_likesCount 1 Demo.camera; Demo.compact];
     users := [Demo.alice; User.set_likedProducts [Demo.camera_id] Demo.bob] |}.

(** ** Vocabulary of the further properties *)






(** The browse request for a category, with the window of [q]. *)
Definition category_browse (category_ : string) (q : QueryParams) : QueryParams :=
  {| catName := Some category_; page := page q; limit := limit q; status := None;
     minPrice := None; maxPrice := None; sortBy := None; search := None; loc := None;
     category := None; maxDistance := None |}.





(** No product has a negative [likesCount]. *)
Definition likes_nonneg (st : Store) : Prop :=
  Forall (fun p => 0 <= Product.likesCount p) (products st).

(** A program keeps an invariant of the store at every one of its
    operations, in whatever store each operation finds, provided the
    invariant held there: this is what makes it hold under interleaving. *)
Fixpoint keeps (E : Env) (I : Store -> Prop) {A} (m : Prog A) : Prop :=
  match m with
  | Await op k =>
      forall st, I st -> I (fst (exec E op st)) /\ keeps E I (k (snd (exec E op st)))
  | _ => True
  end.

(** What a page response and a category response show of a listing. *)
Definition page_view (r : Response) : option (list Product.t * JsInt * JsNum * nat) :=
  match data r with
  | DPage ps pg =>
      if Nat.eqb (status_code r) 200
      then Some (ps, currentPage pg, totalPages pg, totalProducts pg) else None
  | _ => None
  end.

Definition category_view (r : Reply CategoryPage)
    : option (list Product.t * JsInt * JsNum * nat) :=
  match reply_data r with
  | Some d =>
      if Nat.eqb (reply_status r) 200
      then Some (cat_products d, cat_currentPage d, cat_totalPages d, cat_totalProducts d)
      else None
  | None => None
  end.




(** Ids are unique in the Product collection. *)
Definition unique_ids (st : Store) : Prop := NoDup (map Product._id (products st)).

(** * Properties *)

(** ** Sorting *)

Section SortFacts.

Context {A : Type} (leb : A -> A -> bool).

Lemma insert_by_perm (x : A) (l : list A) : Permutation (Mongo.insert_by leb x l) (x :: l).
Proof.
  induction l as [| y r IH]; simpl.
  - apply Permutation_refl.
  - destruct (leb x y).
    + apply Permutation_refl.
    + apply perm_trans with (y :: x :: r).
      * now apply perm_skip.
      * apply perm_swap.
Qed.

Lemma sort_by_perm (l : list A) : Permutation (Mongo.sort_by leb l) l.
Proof.
  induction l as [| x r IH]; simpl.
  - apply perm_nil.
  - eapply perm_trans; [apply insert_by_perm |]. now apply perm_skip.
Qed.


Lemma sort_by_In (l : list A) (x : A) : In x (Mongo.sort_by leb l) <-> In x l.
Proof.
  split; apply Permutation_in.
  - apply sort_by_perm.
  - apply Permutation_sym, sort_by_perm.
Qed.

Hypothesis leb_total : forall a b, leb a b = false -> leb b a = true.

Lemma insert_by_sorted (x : A) (l : list A) :
  Sorted (fun a b => leb a b = true) l ->
  Sorted (fun a b => leb a b = true) (Mongo.insert_by leb x l).
Proof.
  induction 1 as [| y r Hr IH Hy]; simpl.
  - repeat constructor.
  - destruct (leb x y) eqn:Hxy.
    + constructor; [now constructor | now constructor].
    + constructor; [exact IH |].
      destruct r as [| z r']; simpl.
      * constructor. now apply leb_total.
      * destruct (leb x z); constructor.
        -- now apply leb_total.
        -- now inversion Hy.
Qed.

Lemma sort_by_sorted (l : list A) : Sorted (fun a b => leb a b = true) (Mongo.sort_by leb l).
Proof.
  induction l as [| x r IH]; simpl.
  - constructor.
  - now apply insert_by_sorted.
Qed.

End SortFacts.

Lemma Sorted_impl {A} (R S : A -> A -> Prop) (l : list A) :
  (forall a b, R a b -> S a b) -> Sorted R l -> Sorted S l.
Proof.
  intros HRS; induction 1 as [| x r Hr IH Hx]; constructor; auto.
  destruct Hx; constructor; auto.
Qed.

Lemma sort_newest_first (l : list Product.t) :
  newest_first (Mongo.sort_by (Mongo.sort_leb CreatedAtDesc) l).
Proof.
  unfold newest_first.
  apply Sorted_impl with (R := fun a b => Mongo.sort_leb CreatedAtDesc a b = true).
  - simpl; intros a b H. now apply Z.leb_le.
  - apply sort_by_sorted. simpl; intros a b H.
    apply Z.leb_gt in H. apply Z.leb_le. lia.
Qed.

Lemma sort_nearest_first (E : Env) (c : Position) (l : list Product.t) :
  nearest_first E c (Mongo.sort_by (Mongo.nearer E c) l).
Proof.
  unfold nearest_first.
  apply Sorted_impl with (R := fun a b => Mongo.nearer E c a b = true).
  - unfold Mongo.nearer; intros a b H. now apply Qle_bool_iff.
  - apply sort_by_sorted. unfold Mongo.nearer; intros a b H.
    apply Qle_bool_iff. apply Qlt_le_weak, Qnot_le_lt.
    intros Hle. apply Qle_bool_iff in Hle. congruence.
Qed.

(** Left to itself a [$near] query lists the nearest first; it is the
    explicit [sort()] that decides otherwise. *)
Lemma near_query_unsorted_is_nearest_first (E : Env) (q : Query) (n : Near) (c : Position)
    (st : Store) (ps : list Product.t) :
  q_near q = Some n -> Mongo.near_centre n = Some c ->
  Mongo.find_products E q None None None st = Ok ps ->
  nearest_first E c ps.
Proof.
  intros Hn Hc. unfold Mongo.find_products.
  destruct (Mongo.compile E q) as [f | e]; [| discriminate].
  unfold Mongo.order. rewrite Hn, Hc. cbn [Mongo.apply_skip Mongo.apply_limit].
  intros [= <-]. apply sort_nearest_first.
Qed.

(** ** Search *)

Section SearchFacts.

Variable E : Env.

Lemma search_filter_compiles (q : QueryParams) (kw : string) (lat lon radius : Q)
    (m : string -> bool) :
  Product.coordinates_ok [Fin lon; Fin lat] = true ->
  regex_i E kw = Some m ->
  search_radius q = Fin radius -> (0 <= radius)%Q ->
  Mongo.compile E (search_filter q kw (Fin lat) (Fin lon))
  = Ok (search_matches E q m (lon, lat) radius).
Proof.
  intros Hc Hm Hr H0.
  unfold Mongo.compile, search_filter; cbn [q_price_gte q_price_lte q_or_regex q_near
    q_status q_category].
  rewrite Hm. unfold Mongo.near_centre, Mongo.near_bound; cbn [near_lon near_lat near_max].
  rewrite Hc, Hr. apply Qle_bool_iff in H0. rewrite H0. reflexivity.
Qed.

Lemma searchProducts_served (st : Store) (q : QueryParams) (kw loc_ : string)
    (lat lon radius : Q) (m : string -> bool) :
  search q = Some kw -> loc q = Some loc_ ->
  parse_loc loc_ = (Fin lat, Fin lon) ->
  Product.coordinates_ok [Fin lon; Fin lat] = true ->
  regex_i E kw = Some m ->
  search_radius q = Fin radius -> (0 <= radius)%Q ->
  serve E (searchProducts q) st
  = (st, respond 200 true "Search completed successfully"
           (let ps := Mongo.sort_by (Mongo.sort_leb CreatedAtDesc)
                        (filter (search_matches E q m (lon, lat) radius) (products st)) in
            DSearch ps kw (Fin lat) (Fin lon) (length ps))).
Proof.
  intros Hs Hl Hp Hc Hm Hr H0.
  unfold serve, searchProducts. rewrite Hl, Hp, Hs.
  cbn [try_catch bind await run exec]. unfold Mongo.find_products.
  rewrite (search_filter_compiles q kw lat lon radius m Hc Hm Hr H0).
  reflexivity.
Qed.

End SearchFacts.

(** C1 (as amended). In search mode, for every query with a keyword whose
    pattern the engine accepts, a valid location and a non-negative
    radius, the request succeeds and every returned item is a stored
    product with status active that matches the keyword, without regard
    to case, in its name, description or category, and lies no farther
    than the radius ([maxDistance] kilometres in metres, 50 km by
    default) from the query point; the list is ordered by creation time,
    newest first, not by distance. *)
Theorem search_results_match_within_radius_newest_first
    (E : Env) (st : Store) (q : QueryParams) (kw loc_ : string)
    (lat lon radius : Q) (m : string -> bool) :
  search q = Some kw -> loc q = Some loc_ ->
  parse_loc loc_ = (Fin lat, Fin lon) ->
  Product.coordinates_ok [Fin lon; Fin lat] = true ->
  regex_i E kw = Some m ->
  search_radius q = Fin radius -> (0 <= radius)%Q ->
  exists ps,
    serve E (searchProducts q) st
    = (st, respond 200 true "Search completed successfully"
             (DSearch ps kw (Fin lat) (Fin lon) (length ps))) /\
    (forall p, In p ps ->
       In p (products st) /\
       Product.status p = "active" /\
       (m (Product.pname p) || m (Product.pdesc p) || m (Product.category p))%bool = true /\
       exists pos, Mongo.position_of p = Some pos /\
                   (geo_distance E pos (lon, lat) <= radius)%Q) /\
    newest_first ps /\
    (maxDistance q = None -> (radius == 50000 # 1)%Q).
Proof.
  intros Hs Hl Hp Hc Hm Hr H0.
  eexists; split; [| split; [| split]].
  - rewrite (searchProducts_served E st q kw loc_ lat lon radius m) by assumption.
    cbv zeta. reflexivity.
  - intros p Hin. apply sort_by_In in Hin. apply filter_In in Hin.
    destruct Hin as [Hin Hp']. split; [exact Hin |].
    unfold search_matches in Hp'.
    repeat (apply andb_true_iff in Hp'; let H := fresh "H" in destruct Hp' as [Hp' H]).
    split; [now apply String.eqb_eq |]. split; [assumption |].
    unfold Mongo.within in *.
    destruct (Mongo.position_of p) as [pos |]; [| discriminate].
    exists pos; split; [reflexivity |]. now apply Qle_bool_iff.
  - apply sort_newest_first.
  - intros Hnone. unfold search_radius in Hr. rewrite Hnone in Hr. simpl in Hr.
    injection Hr as <-. reflexivity.
Qed.

Lemma search_results_match_within_radius_newest_first_witness :
  exists ps,
    serve Demo.env (searchProducts (Demo.search_for "camera" "28.6139,77.209")) Demo.store
    = (Demo.store,
       respond 200 true "Search completed successfully"
         (DSearch ps "camera" (Fin (286139 # 10000)) (Fin (77209 # 1000)) (length ps))) /\
    (forall p, In p ps ->
       In p (products Demo.store) /\
       Product.status p = "active" /\
       (includes "camera" (toLowerCase (Product.pname p)) ||
        includes "camera" (toLowerCase (Product.pdesc p)) ||
        includes "camera" (toLowerCase (Product.category p)))%bool = true /\
       exists pos, Mongo.position_of p = Some pos /\
                   (Demo.distance pos (77209 # 1000, 286139 # 10000) <= 50000 # 1)%Q) /\
    newest_first ps /\
    (@None string = None -> (50000 # 1 == 50000 # 1)%Q).
Proof.
  apply (search_results_match_within_radius_newest_first Demo.env Demo.store
           (Demo.search_for "camera" "28.6139,77.209") "camera" "28.6139,77.209"
           (286139 # 10000) (77209 # 1000) (50000 # 1)
           (fun text => includes "camera" (toLowerCase text)));
    try reflexivity.
  unfold Qle; simpl; lia.
Defined.

(** C1 (counterexample). Two active cameras on one meridian: the one
    listed later lies about 11 km north of the query point, the older one
    at the query point itself. The search returns the later one first, so
    the list is not in order of non-decreasing distance. *)
Lemma search_lists_farther_product_first :
  serve Demo.env (GET_products_search (Demo.search_for "camera" "28.6139,77.209")) Demo.store
  = (Demo.store,
     respond 200 true "Search completed successfully"
       (DSearch [Demo.compact; Demo.camera] "camera"
          (Fin (286139 # 10000)) (Fin (77209 # 1000)) 2)) /\
  ~ nearest_first Demo.env (77209 # 1000, 286139 # 10000) [Demo.compact; Demo.camera].
Proof.
  split.
  - vm_compute. reflexivity.
  - unfold nearest_first. intros H.
    inversion H as [| a l Hs Hd]; subst.
    inversion Hd as [| b l' Hle]; subst.
    vm_compute in Hle. apply Hle. reflexivity.
Qed.

(** ** Validation of search requests *)

Lemma app_nil_inv {A} (l1 l2 : list A) : (l1 ++ l2)%list = [] -> l1 = [] /\ l2 = [].
Proof. destruct l1; simpl; [auto | discriminate]. Qed.


Lemma searchSchema_accepts (q : QueryParams) :
  searchSchema q = [] <-> search_well_formed q.
Proof.
  unfold searchSchema, search_well_formed. split.
  - intros H.
    apply app_nil_inv in H; destruct H as [H1 H].
    apply app_nil_inv in H; destruct H as [H2 H].
    apply app_nil_inv in H; destruct H as [H3 H4].
    repeat split.
    + destruct (search q) as [s |]; [| discriminate]. exists s; split; [reflexivity |].
      apply app_nil_inv in H1; destruct H1 as [Ha Hb].
      destruct (Nat.ltb (String.length s) 1) eqn:L1; [discriminate |].
      destruct (Nat.ltb 100 (String.length s)) eqn:L2; [discriminate |].
      apply Nat.ltb_ge in L1, L2. lia.
    + destruct (loc q) as [l |]; [| discriminate]. exists l; split; [reflexivity |].
      destruct (loc_format l); [reflexivity | discriminate].
    + intros c Hc. rewrite Hc in H3.
      destruct (Product.in_enum Product.categories c); [reflexivity | discriminate].
    + intros v Hv. rewrite Hv in H4.
      destruct (JsNumber.parseInt v) as [n |]; [| discriminate].
      exists n; split; [reflexivity |].
      destruct ((0 <? n) && (n <=? 1000))%bool eqn:En; [| discriminate].
      apply andb_true_iff in En. destruct En as [Ea Eb].
      apply Z.ltb_lt in Ea. apply Z.leb_le in Eb. lia.
  - intros [[s [Hs Hlen]] [[l [Hl Hf]] [Hc Hm]]].
    rewrite Hs, Hl, Hf.
    replace (Nat.ltb (String.length s) 1) with false
      by (symmetry; apply Nat.ltb_ge; lia).
    replace (Nat.ltb 100 (String.length s)) with false
      by (symmetry; apply Nat.ltb_ge; lia).
    assert (Hmax :
      match maxDistance q with
      | None => []
      | Some v =>
          match JsNumber.parseInt v with
          | Some n =>
              if ((0 <? n) && (n <=? 1000))%bool then []
              else ["Max distance must be a number between 1 and 1000"]
          | None => ["Max distance must be a number between 1 and 1000"]
          end
      end = @nil string).
    { destruct (maxDistance q) as [v |]; [| reflexivity].
      destruct (Hm v eq_refl) as [n [Hn Hr]]. rewrite Hn.
      replace ((0 <? n) && (n <=? 1000))%bool with true; [reflexivity |].
      symmetry; apply andb_true_iff; split; [apply Z.ltb_lt | apply Z.leb_le]; lia. }
    rewrite Hmax.
    destruct (category q) as [c |]; [rewrite (Hc c eq_refl) |]; reflexivity.
Qed.

(** C5 (as amended). A search request is rejected with a validation
    response, before the handler runs and so before any catalogue query,
    exactly when the query string is not well formed: the keyword is
    missing or has no character or more than 100, the location is missing
    or is not of the form [-?digits[.digits],-?digits[.digits]], the
    category is not in the enumeration, or [maxDistance] does not start
    with an integer from 1 to 1000. The ranges of latitude and longitude
    and the keyword's surrounding white space are not examined. *)
Theorem search_rejected_iff_ill_formed (q : QueryParams) :
  (search_well_formed q -> GET_products_search q = searchProducts q) /\
  (~ search_well_formed q ->
   exists issues,
     issues <> [] /\
     GET_products_search q = Ret (respond 400 false "Validation failed" (DErrors issues)) /\
     forall (E : Env) (st : Store),
       fst (serve E (GET_products_search q) st) = st /\
       kind_of (snd (serve E (GET_products_search q) st)) = Some KValidationError).
Proof.
  unfold GET_products_search, validate. split.
  - intros H. apply searchSchema_accepts in H. now rewrite H.
  - intros H. destruct (searchSchema q) as [| i r] eqn:Hq.
    + exfalso. apply H. now apply searchSchema_accepts.
    + exists (i :: r). split; [discriminate |]. split; [reflexivity |].
      intros E st. split; reflexivity.
Qed.

Lemma search_rejected_iff_ill_formed_witness :
  (search_well_formed (Demo.search_for "camera" "28.6139,77.209") ->
   GET_products_search (Demo.search_for "camera" "28.6139,77.209")
   = searchProducts (Demo.search_for "camera" "28.6139,77.209")) /\
  exists issues,
    issues <> [] /\
    GET_products_search (Demo.search_for "" "28.6139;77.209")
    = Ret (respond 400 false "Validation failed" (DErrors issues)) /\
    forall (E : Env) (st : Store),
      fst (serve E (GET_products_search (Demo.search_for "" "28.6139;77.209")) st) = st /\
      kind_of (snd (serve E (GET_products_search (Demo.search_for "" "28.6139;77.209")) st))
      = Some KValidationError.
Proof.
  split.
  - apply (proj1 (search_rejected_iff_ill_formed (Demo.search_for "camera" "28.6139,77.209"))).
  - apply (proj2 (search_rejected_iff_ill_formed (Demo.search_for "" "28.6139;77.209"))).
    intros H. apply searchSchema_accepts in H. vm_compute in H. discriminate.
Defined.

(** C5 (counterexample). The location ["1000,1000"] has the required form,
    so the request passes validation and reaches the handler, whose query
    the engine refuses: the answer is the internal error, not a
    validation error. A keyword of one space passes validation too, and
    the search runs. *)
Lemma search_out_of_range_location_not_rejected :
  GET_products_search (Demo.search_for "camera" "1000,1000")
  = searchProducts (Demo.search_for "camera" "1000,1000") /\
  kind_of (snd (serve Demo.env (GET_products_search (Demo.search_for "camera" "1000,1000"))
                  Demo.store)) = Some KInternal /\
  trim " " = "" /\
  status_code (snd (serve Demo.env (GET_products_search (Demo.search_for " " "28.6139,77.209"))
                      Demo.store)) = 200%nat.
Proof. repeat split; vm_compute; reflexivity. Qed.

(** The cases named by the specification are ill formed. *)
Lemma search_ill_formed_cases (q : QueryParams) :
  loc q = None \/ (exists l, loc q = Some l /\ loc_format l = false) \/
  search q = None \/ search q = Some "" ->
  ~ search_well_formed q.
Proof.
  intros H [[s [Hs Hlen]] [[l [Hl Hf]] _]].
  destruct H as [H | [[l' [H Hf']] | [H | H]]]; try congruence.
  rewrite Hs in H. injection H as ->. simpl in Hlen. lia.
Qed.

(** ** Search answers in one response *)



(** ** Programs and lookups *)

Lemma run_bind (E : Env) {A B} (m : Prog A) (f : A -> Prog B) (st : Store) :
  run E (bind m f) st
  = match run E m st with
    | (st', Ok a) => run E (f a) st'
    | (st', Err e) => (st', Err e)
    end.
Proof.
  revert st. induction m as [a | e | X op k IH]; intros st; simpl.
  - reflexivity.
  - reflexivity.
  - destruct (exec E op st) as [st' r]. apply IH.
Qed.

Lemma ObjectId_eqb_refl (o : ObjectId) : ObjectId_eqb o o = true.
Proof. unfold ObjectId_eqb. apply String.eqb_refl. Qed.

Lemma ObjectId_eqb_eq (a b : ObjectId) : ObjectId_eqb a b = true <-> a = b.
Proof.
  unfold ObjectId_eqb. rewrite String.eqb_eq. destruct a, b; simpl.
  split; [intros -> | intros [= ->]]; reflexivity.
Qed.

Lemma ObjectId_eqb_sym (a b : ObjectId) : ObjectId_eqb a b = ObjectId_eqb b a.
Proof. unfold ObjectId_eqb. apply String.eqb_sym. Qed.

Lemma product_by_id_id (o : ObjectId) (st : Store) (p : Product.t) :
  Mongo.product_by_id o st = Some p -> Product._id p = o.
Proof.
  unfold Mongo.product_by_id. intros H. apply find_some in H.
  now apply ObjectId_eqb_eq.
Qed.

Lemma user_by_id_id (o : ObjectId) (st : Store) (u : User.t) :
  Mongo.user_by_id o st = Some u -> User._id u = o.
Proof.
  unfold Mongo.user_by_id. intros H. apply find_some in H.
  now apply ObjectId_eqb_eq.
Qed.

(** After a replacement the id finds the new document, provided it keeps
    the id. *)
Lemma find_replace_product (o : ObjectId) (d p : Product.t) (l : list Product.t) :
  List.find (fun x => ObjectId_eqb (Product._id x) o) l = Some p ->
  Product._id d = o ->
  List.find (fun x => ObjectId_eqb (Product._id x) o) (Mongo.replace_product o d l) = Some d.
Proof.
  intros Hf Hd. induction l as [| x r IH]; simpl in *; [discriminate |].
  destruct (ObjectId_eqb (Product._id x) o) eqn:Hx; simpl.
  - rewrite Hd, ObjectId_eqb_refl. reflexivity.
  - rewrite Hx. now apply IH.
Qed.

Lemma find_replace_user (o : ObjectId) (d u : User.t) (l : list User.t) :
  List.find (fun x => ObjectId_eqb (User._id x) o) l = Some u ->
  User._id d = o ->
  List.find (fun x => ObjectId_eqb (User._id x) o) (Mongo.replace_user o d l) = Some d.
Proof.
  intros Hf Hd. induction l as [| x r IH]; simpl in *; [discriminate |].
  destruct (ObjectId_eqb (User._id x) o) eqn:Hx; simpl.
  - rewrite Hd, ObjectId_eqb_refl. reflexivity.
  - rewrite Hx. now apply IH.
Qed.

(** A replacement under one id leaves the other ids as they were. *)
Lemma find_replace_user_other (o o' : ObjectId) (d : User.t) (l : list User.t) :
  o' <> o -> User._id d = o ->
  List.find (fun x => ObjectId_eqb (User._id x) o') (Mongo.replace_user o d l)
  = List.find (fun x => ObjectId_eqb (User._id x) o') l.
Proof.
  intros Hne Hd. induction l as [| x r IH]; simpl; [reflexivity |].
  destruct (ObjectId_eqb (User._id x) o) eqn:Hx; simpl.
  - apply ObjectId_eqb_eq in Hx.
    replace (ObjectId_eqb (User._id d) o') with false.
    + replace (ObjectId_eqb (User._id x) o') with false; [reflexivity |].
      symmetry. apply not_true_is_false. rewrite ObjectId_eqb_eq. congruence.
    + symmetry. apply not_true_is_false. rewrite ObjectId_eqb_eq. congruence.
  - now rewrite IH.
Qed.

Lemma findProductById_text (E : Env) (o : ObjectId) (st : Store) :
  well_formed_id E o ->
  Mongo.findProductById E (JString (oid_hex o)) st = Ok (Mongo.product_by_id o st).
Proof. unfold Mongo.findProductById, Mongo.cast_id. now intros ->. Qed.

(** The middleware only ever passes on a [userId] that is an ObjectId
    object, and it does not write. *)
Lemma authenticateToken_continue (E : Env) (authorization : option string) (st st' : Store)
    (u : ReqUser) :
  run E (authenticateToken E authorization) st = (st', Ok (Continue u)) ->
  st' = st /\ exists usr, Mongo.user_by_id (User._id usr) st = Some usr /\
                          User.isActive usr = true /\ userId u = JObjectId (User._id usr).
Proof.
  unfold authenticateToken.
  destruct (bearer_token authorization) as [token |]; [| discriminate].
  destruct (jwt_verify E token) as [uid | |]; try discriminate.
  cbn [try_catch bind await run exec].
  destruct (Mongo.findUserById E uid st) as [[usr |] | e] eqn:Hf;
    cbn [try_catch bind run]; try discriminate.
  destruct (User.isActive usr) eqn:Ha; cbn [negb try_catch bind run]; [| discriminate].
  intros [= <- <-]. split; [reflexivity |].
  exists usr. cbn [userId]. repeat split; try assumption.
  unfold Mongo.findUserById in Hf.
  destruct (Mongo.cast_id E uid) as [[o |] | e]; try discriminate.
  injection Hf as Hf. rewrite (user_by_id_id _ _ _ Hf). exact Hf.
Qed.

(** ** Ownership *)

Section OwnershipFacts.

Variable E : Env.

(** What [updateProduct] and [deleteProduct] answer when the product
    exists and [req.user.userId] is an ObjectId object: the guard compares
    a string with an object, and [!==] holds. *)
Lemma updateProduct_object_id (st : Store) (now : Z) (productId : string) (u : ReqUser)
    (body : UpdateBody) (p : Product.t) (o : ObjectId) :
  Mongo.findProductById E (JString productId) st = Ok (Some p) ->
  userId u = JObjectId o ->
  run E (updateProduct now productId (Some u) body) st
  = (st, Ok (respond 403 false "You can only update your own products" NoData)).
Proof.
  intros Hp Hu. unfold updateProduct.
  cbn [try_catch bind await run exec optional_userId]. rewrite Hp, Hu.
  reflexivity.
Qed.

Lemma deleteProduct_object_id (st : Store) (productId : string) (u : ReqUser)
    (p : Product.t) (o : ObjectId) :
  Mongo.findProductById E (JString productId) st = Ok (Some p) ->
  userId u = JObjectId o ->
  run E (deleteProduct productId (Some u)) st
  = (st, Ok (respond 403 false "You can only delete your own products" NoData)).
Proof.
  intros Hp Hu. unfold deleteProduct.
  cbn [try_catch bind await run exec optional_userId]. rewrite Hp, Hu.
  reflexivity.
Qed.

(** The guard on a [userId] that is a string: any text other than the
    owner's id is refused, and nothing is written. *)
Lemma update_and_delete_refuse_other_text (st : Store) (now : Z) (productId : string)
    (u : ReqUser) (body : UpdateBody) (p : Product.t) (s : string) :
  Mongo.findProductById E (JString productId) st = Ok (Some p) ->
  userId u = JString s ->
  s <> oid_hex (Product.addedBy p) ->
  run E (updateProduct now productId (Some u) body) st
  = (st, Ok (respond 403 false "You can only update your own products" NoData)) /\
  run E (deleteProduct productId (Some u)) st
  = (st, Ok (respond 403 false "You can only delete your own products" NoData)).
Proof.
  intros Hp Hu Hne.
  assert (Hneq : String.eqb (oid_hex (Product.addedBy p)) s = false).
  { apply String.eqb_neq. congruence. }
  unfold updateProduct, deleteProduct.
  cbn [try_catch bind await run exec optional_userId]. rewrite Hp, Hu.
  cbn [try_catch bind run string_strict_neq]. rewrite Hneq.
  split; reflexivity.
Qed.

End OwnershipFacts.

(** C2 (the code at the failing input, in general). Whoever the
    authentication middleware lets through, the owner included, an update
    or a deletion of an existing product is answered Forbidden and the
    store is left as it was: the middleware puts the ObjectId of the user
    in [req.user.userId], and the guard [product.addedBy.toString() !==
    userId] compares it with a string. *)
Theorem authenticated_update_and_delete_forbidden
    (E : Env) (st : Store) (now : Z) (authorization : option string) (productId : string)
    (body : UpdateBody) (u : ReqUser) (p : Product.t) :
  run E (authenticateToken E authorization) st = (st, Ok (Continue u)) ->
  Mongo.findProductById E (JString productId) st = Ok (Some p) ->
  serve E (PUT_product E now authorization productId body) st
  = (st, respond 403 false "You can only update your own products" NoData) /\
  serve E (DELETE_product E authorization productId) st
  = (st, respond 403 false "You can only delete your own products" NoData).
Proof.
  intros Ha Hp.
  destruct (authenticateToken_continue E authorization st st u Ha)
    as [_ [usr [_ [_ Hu]]]].
  unfold serve, PUT_product, DELETE_product. rewrite !run_bind, Ha.
  rewrite (updateProduct_object_id E st now productId u body p _ Hp Hu).
  rewrite (deleteProduct_object_id E st productId u p _ Hp Hu).
  split; reflexivity.
Qed.

(** Alice, with her own token, on her own camera. *)
Lemma authenticated_update_and_delete_forbidden_witness :
  Product.addedBy Demo.camera = User._id Demo.alice /\
  serve Demo.env
    (PUT_product Demo.env 5000 (Some "Bearer 650000000000000000000a11")
       "65f000000000000000000001" (Demo.body_of Demo.no_updates)) Demo.store
  = (Demo.store, respond 403 false "You can only update your own products" NoData) /\
  serve Demo.env
    (DELETE_product Demo.env (Some "Bearer 650000000000000000000a11")
       "65f000000000000000000001") Demo.store
  = (Demo.store, respond 403 false "You can only delete your own products" NoData).
Proof.
  split; [reflexivity |].
  apply (authenticated_update_and_delete_forbidden Demo.env Demo.store 5000
           (Some "Bearer 650000000000000000000a11") "65f000000000000000000001"
           (Demo.body_of Demo.no_updates)
           {| userId := JObjectId Demo.alice_id; req_username := "alice";
              req_email := "alice@example.com" |}
           Demo.camera); reflexivity.
Defined.

(** ** Updates by the owner *)

Section UpdateFacts.

Variable E : Env.


Lemma findProductById_cases (id : string) (st : Store) (p : Product.t) :
  Mongo.findProductById E (JString id) st = Ok (Some p) ->
  exists o, Mongo.cast_id E (JString id) = Ok (Some o) /\ Mongo.product_by_id o st = Some p.
Proof.
  unfold Mongo.findProductById.
  destruct (Mongo.cast_id E (JString id)) as [[o |] | e]; try discriminate.
  intros [= H]. now exists o.
Qed.

End UpdateFacts.



(** ** Validation of stored values *)



Lemma price_ok_positive (v : JsNum) :
  Product.price_ok v = true -> JsNumber.gt v (JsNumber.of_Z 0) = true.
Proof.
  unfold Product.price_ok, JsNumber.ge, JsNumber.gt, JsNumber.lt, JsNumber.le, JsNumber.of_Z.
  destruct v as [| [|] | q]; try discriminate; try reflexivity.
  intros H. apply Qle_bool_iff in H. apply negb_true_iff.
  destruct (Qle_bool q (inject_Z 0)) eqn:Hq; [| reflexivity].
  apply Qle_bool_iff in Hq.
  assert (Habs : (1 # 100 <= inject_Z 0)%Q) by (eapply Qle_trans; eassumption).
  unfold Qle in Habs; simpl in Habs; lia.
Qed.

Lemma check_price_nil (v : JsNum) : Product.check_price v = [] -> Product.price_ok v = true.
Proof.
  unfold Product.check_price.
  destruct v as [| n | q]; try discriminate;
    match goal with |- (if ?b then _ else _) = _ -> _ => destruct b end;
    try discriminate; reflexivity.
Qed.

Lemma check_coordinates_nil (v : list JsNum) :
  Product.check_coordinates v = [] -> Product.coordinates_ok v = true.
Proof.
  unfold Product.check_coordinates.
  destruct (existsb JsNumber.isNaN v); [discriminate |].
  destruct (Product.coordinates_ok v); [reflexivity | discriminate].
Qed.

(** A document that passes the validators is within the bounds. *)
Lemma validate_in_bounds (p : Product.t) : Product.validate p = [] -> in_bounds p.
Proof.
  unfold Product.validate. intros Hv.
  apply app_nil_inv in Hv; destruct Hv as [_ Hv].
  apply app_nil_inv in Hv; destruct Hv as [_ Hv].
  apply app_nil_inv in Hv; destruct Hv as [Hprice Hv].
  apply app_nil_inv in Hv; destruct Hv as [_ Hv].
  apply app_nil_inv in Hv; destruct Hv as [_ Hv].
  apply app_nil_inv in Hv; destruct Hv as [Hcoord _].
  split.
  - now apply price_ok_positive, check_price_nil.
  - now apply check_coordinates_nil.
Qed.

(** An update that passes the update validators keeps a document within
    the bounds. *)
Lemma apply_updates_in_bounds (now : Z) (u : Updates) (p : Product.t) :
  Writes.update_errors u = [] -> in_bounds p -> in_bounds (Writes.apply_updates now u p).
Proof.
  unfold Writes.update_errors. intros Hv [Hp Hc].
  apply app_nil_inv in Hv; destruct Hv as [_ Hv].
  apply app_nil_inv in Hv; destruct Hv as [_ Hv].
  apply app_nil_inv in Hv; destruct Hv as [Hprice Hv].
  apply app_nil_inv in Hv; destruct Hv as [_ Hv].
  apply app_nil_inv in Hv; destruct Hv as [Hcoord _].
  split; cbn [Writes.apply_updates Product.price Product.coordinates].
  - destruct (upd_price u) as [q |]; cbn [option_map Writes.or_else Writes.opt_check] in *.
    + now apply price_ok_positive, check_price_nil.
    + exact Hp.
  - destruct (upd_coordinates u) as [c |]; cbn [option_map Writes.or_else Writes.opt_check] in *.
    + now apply check_coordinates_nil.
    + exact Hc.
Qed.

Lemma Forall_replace_product (P : Product.t -> Prop) (o : ObjectId) (d : Product.t)
    (l : list Product.t) :
  Forall P l -> P d -> Forall P (Mongo.replace_product o d l).
Proof.
  intros Hl Hd. induction Hl as [| x r Hx Hr IH]; simpl; [constructor |].
  destruct (ObjectId_eqb (Product._id x) o); constructor; auto.
Qed.

Lemma Forall_remove_product (P : Product.t -> Prop) (o : ObjectId) (l : list Product.t) :
  Forall P l -> Forall P (Writes.remove_product o l).
Proof.
  induction 1 as [| x r Hx Hr IH]; simpl; [constructor |].
  destruct (ObjectId_eqb (Product._id x) o); [assumption | constructor; auto].
Qed.

Lemma product_by_id_in_bounds (o : ObjectId) (st : Store) (p : Product.t) :
  store_in_bounds st -> Mongo.product_by_id o st = Some p -> in_bounds p.
Proof.
  unfold store_in_bounds, Mongo.product_by_id. intros Hst Hf.
  apply find_some in Hf. destruct Hf as [Hin _].
  rewrite Forall_forall in Hst. now apply Hst.
Qed.

Lemma copy_paths_in_bounds (doc stored : Product.t) (modified : list ProductPath) :
  in_bounds stored -> in_bounds (fold_right (Writes.copy_path doc) stored modified).
Proof.
  intros Hs. induction modified as [| path r IH]; simpl; [exact Hs |].
  destruct path; exact IH.
Qed.

(** The invariant of the data model: no operation on the store, and so
    no handler, takes a product out of the bounds of price and
    coordinates; what the validators refuse is not written. *)
Lemma exec_keeps_bounds (E : Env) {X : Type} (op : DbOp X) (st : Store) :
  store_in_bounds st -> store_in_bounds (fst (exec E op st)).
Proof.
  intros Hst. destruct op; cbn [exec fst]; try exact Hst.
  - (* user.save() *)
    unfold Writes.save_user. destruct (Mongo.user_by_id (User._id doc) st); exact Hst.
  - (* new Product(d).save() *)
    unfold Writes.create_product.
    destruct (Writes.new_document E oid now d) as [doc | e] eqn:Hn; [| exact Hst].
    unfold store_in_bounds, Mongo.with_products; cbn [fst products].
    apply Forall_app; split; [exact Hst |]. constructor; [| constructor].
    unfold Writes.new_document in Hn.
    match type of Hn with
    | match ?ow with Some _ => _ | None => _ end = _ => destruct ow as [own |]; [| discriminate]
    end.
    match type of Hn with
    | match Product.validate ?c with [] => _ | _ :: _ => _ end = _ =>
        destruct (Product.validate c) eqn:Hv; [| discriminate]
    end.
    injection Hn as <-. now apply validate_in_bounds.
  - (* product.save() *)
    unfold Writes.save_product. destruct modified as [| path r]; [exact Hst |].
    destruct (Mongo.product_by_id (Product._id doc) st) as [stored |] eqn:Hf; [| exact Hst].
    unfold store_in_bounds, Mongo.with_products; cbn [fst products].
    apply Forall_replace_product; [exact Hst |].
    pose proof (copy_paths_in_bounds doc stored (path :: r)
                  (product_by_id_in_bounds _ st stored Hst Hf)) as [H1 H2].
    split; assumption.
  - (* findByIdAndUpdate *)
    unfold Writes.findByIdAndUpdate.
    destruct (Mongo.cast_id E id) as [[o |] | e]; try exact Hst.
    destruct (Writes.update_errors u) eqn:Hu; [| exact Hst].
    destruct (Mongo.product_by_id o st) as [p |] eqn:Hf; [| exact Hst].
    unfold store_in_bounds, Mongo.with_products; cbn [fst products].
    apply Forall_replace_product; [exact Hst |].
    apply apply_updates_in_bounds; [exact Hu |].
    now apply (product_by_id_in_bounds o st).
  - (* findByIdAndDelete *)
    unfold Writes.findByIdAndDelete.
    destruct (Mongo.cast_id E id) as [[o |] | e]; try exact Hst.
    destruct (Mongo.product_by_id o st) as [p |]; [| exact Hst].
    unfold store_in_bounds, Mongo.with_products; cbn [fst products].
    now apply Forall_remove_product.
Qed.

Lemma run_keeps_bounds (E : Env) {A} (m : Prog A) (st : Store) :
  store_in_bounds st -> store_in_bounds (fst (run E m st)).
Proof.
  revert st. induction m as [a | e | X op k IH]; intros st Hst; simpl; try exact Hst.
  pose proof (exec_keeps_bounds E op st Hst) as Hop.
  destruct (exec E op st) as [st' r]. now apply IH.
Qed.



(** [addProduct] answers a creation that is out of the bounds with the
    validation error (400), and stores nothing. *)
Lemma addProduct_invalid_rejected (E : Env) (st : Store) (oid : ObjectId) (now : Z)
    (u : ReqUser) (body : AddBody) (image : string) (rest : list string) :
  files_pimage body = image :: rest ->
  ~ insert_in_bounds body ->
  exists issues,
    serve E (addProduct oid now (Some u) body) st
    = (st, respond 400 false "Validation failed" (DErrors issues)).
Proof.
  intros Hf Hbad. unfold serve, addProduct. rewrite Hf.
  cbn [try_catch bind await run exec]. unfold Writes.create_product.
  match goal with |- context [Writes.new_document ?env ?a ?b ?c] =>
    destruct (Writes.new_document env a b c) as [doc | e] eqn:Hn end.
  - exfalso. apply Hbad.
    unfold Writes.new_document in Hn. cbn [d_addedBy d_price d_coordinates] in Hn.
    match type of Hn with
    | match ?ow with Some _ => _ | None => _ end = _ => destruct ow as [own |]; [| discriminate]
    end.
    match type of Hn with
    | match Product.validate ?d with [] => _ | _ :: _ => _ end = _ =>
        destruct (Product.validate d) eqn:Hv; [| discriminate]
    end.
    apply validate_in_bounds in Hv. exact Hv.
  - unfold Writes.new_document in Hn. cbn [d_addedBy] in Hn.
    match type of Hn with
    | match ?ow with Some _ => _ | None => _ end = _ => destruct ow as [own |]
    end.
    + match type of Hn with
      | match Product.validate ?d with [] => _ | _ :: _ => _ end = _ =>
          destruct (Product.validate d) eqn:Hv; [discriminate |]
      end.
      injection Hn as <-. cbn [try_catch run]. eexists; reflexivity.
    + injection Hn as <-. cbn [try_catch run]. eexists; reflexivity.
Qed.

(** An update whose merged record would be out of the bounds is refused
    by the update validators with a ValidationError, and nothing is
    written. *)
Lemma findByIdAndUpdate_invalid_rejected (E : Env) (st : Store) (id : JsVal) (o : ObjectId)
    (u : Updates) (now : Z) (p : Product.t) :
  store_in_bounds st ->
  Mongo.cast_id E id = Ok (Some o) ->
  Mongo.product_by_id o st = Some p ->
  ~ in_bounds (Writes.apply_updates now u p) ->
  exists issues,
    issues <> [] /\
    Writes.findByIdAndUpdate E id u now st = (st, Err (ValidationError issues)).
Proof.
  intros Hst Hc Hp Hbad. unfold Writes.findByIdAndUpdate. rewrite Hc.
  destruct (Writes.update_errors u) as [| m r] eqn:Hu.
  - exfalso. apply Hbad. apply apply_updates_in_bounds; [exact Hu |].
    now apply (product_by_id_in_bounds o st).
  - exists (m :: r). split; [discriminate | reflexivity].
Qed.

Lemma updateProduct_invalid_unchanged (E : Env) (st : Store) (now : Z) (productId : string)
    (user : option ReqUser) (body : UpdateBody) (p : Product.t) :
  store_in_bounds st ->
  Mongo.findProductById E (JString productId) st = Ok (Some p) ->
  ~ in_bounds (Writes.apply_updates now (strip_protected body) p) ->
  fst (serve E (updateProduct now productId user body) st) = st /\
  success (snd (serve E (updateProduct now productId user body) st)) = false.
Proof.
  intros Hst Hp Hbad.
  destruct (findProductById_cases E productId st p Hp) as [o [Hc Ho]].
  destruct (findByIdAndUpdate_invalid_rejected E st (JString productId) o
              (strip_protected body) now p Hst Hc Ho Hbad) as [issues [_ Hr]].
  unfold serve, updateProduct.
  cbn [try_catch bind await run exec]. rewrite Hp.
  cbn [try_catch bind run].
  destruct (string_strict_neq (oid_hex (Product.addedBy p)) (optional_userId user)).
  - cbn [try_catch bind run fst snd]. split; reflexivity.
  - cbn [try_catch bind await run exec]. rewrite Hr.
    cbn [try_catch bind run fst snd]. split; reflexivity.
Qed.

(** The bounds as an invariant. Starting from a catalogue in which every
    product has a positive price and a longitude and latitude in range,
    no handler, whatever it does, leaves a product out of these bounds.
    An insert whose record would be out of the bounds is rejected with the
    validation error and stores nothing; an update (of any subset of the
    paths) whose merged record would be out of the bounds is rejected by
    the update validators with a ValidationError, and the handler fails
    and leaves the stored state as it was. *)
Lemma bounds_kept_and_violations_rejected (E : Env) (st : Store) :
  store_in_bounds st ->
  (forall (A : Type) (m : Prog A), store_in_bounds (fst (run E m st))) /\
  (forall oid now u body image rest,
     files_pimage body = image :: rest ->
     ~ insert_in_bounds body ->
     exists issues,
       serve E (addProduct oid now (Some u) body) st
       = (st, respond 400 false "Validation failed" (DErrors issues)) /\
       kind_of (respond 400 false "Validation failed" (DErrors issues))
       = Some KValidationError) /\
  (forall now productId user body p,
     Mongo.findProductById E (JString productId) st = Ok (Some p) ->
     ~ in_bounds (Writes.apply_updates now (strip_protected body) p) ->
     (exists issues,
        issues <> [] /\
        Writes.findByIdAndUpdate E (JString productId) (strip_protected body) now st
        = (st, Err (ValidationError issues))) /\
     fst (serve E (updateProduct now productId user body) st) = st /\
     success (snd (serve E (updateProduct now productId user body) st)) = false).
Proof.
  intros Hst. split; [| split].
  - intros A m. now apply run_keeps_bounds.
  - intros oid now u body image rest Hf Hbad.
    destruct (addProduct_invalid_rejected E st oid now u body image rest Hf Hbad)
      as [issues Hr].
    exists issues. split; [exact Hr | reflexivity].
  - intros now productId user body p Hp Hbad. split.
    + destruct (findProductById_cases E productId st p Hp) as [o [Hc Ho]].
      exact (findByIdAndUpdate_invalid_rejected E st (JString productId) o
               (strip_protected body) now p Hst Hc Ho Hbad).
    + exact (updateProduct_invalid_unchanged E st now productId user body p Hst Hp Hbad).
Qed.

Lemma demo_store_in_bounds : store_in_bounds Demo.store.
Proof. repeat constructor. Qed.

Example bounds_kept_and_violations_rejected_on_the_catalogue :
  store_in_bounds Demo.store /\
  (exists issues,
     serve Demo.env (addProduct Demo.compact_id 5000 (Some alice_request) (demo_form "0"))
       Demo.store
     = (Demo.store, respond 400 false "Validation failed" (DErrors issues)) /\
     kind_of (respond 400 false "Validation failed" (DErrors issues))
     = Some KValidationError) /\
  (exists issues,
     issues <> [] /\
     Writes.findByIdAndUpdate Demo.env (JString "65f000000000000000000001")
       (price_only (-5 # 1)) 5000 Demo.store
     = (Demo.store, Err (ValidationError issues))) /\
  store_in_bounds
    (fst (run Demo.env
            (updateProduct 5000 "65f000000000000000000001"
               (Some {| userId := JString "650000000000000000000a11";
                        req_username := "alice"; req_email := "alice@example.com" |})
               (Demo.body_of (price_only (3 # 1)))) Demo.store)).
Proof.
  pose proof (bounds_kept_and_violations_rejected Demo.env Demo.store demo_store_in_bounds)
    as [Hinv [Hins Hupd]].
  split; [exact demo_store_in_bounds |]. split; [| split].
  - apply (Hins Demo.compact_id 5000 alice_request (demo_form "0") "uploads/pimage-3" []).
    + reflexivity.
    + intros [H _]. vm_compute in H. discriminate.
  - apply (Hupd 5000 "65f000000000000000000001" None
             (Demo.body_of (price_only (-5 # 1))) Demo.camera).
    + reflexivity.
    + intros [H _]. vm_compute in H. discriminate.
  - apply Hinv.
Qed.

(** ** Detail fetch *)

(** C10. A detail fetch whose product id is not a valid object id (the
    cast of the id fails) is answered with the invalid-id validation response (400),
    which is not the not-found response, and the store is left as it was:
    no product's [viewsCount] changes. *)
Theorem malformed_id_rejected_without_view
    (E : Env) (st : Store) (now : Z) (productId : string) :
  cast_object_id E productId = None ->
  serve E (GET_product now productId) st
  = (st, respond 400 false "Invalid product ID" NoData) /\
  kind_of (snd (serve E (GET_product now productId) st)) = Some KValidationError /\
  kind_of (snd (serve E (GET_product now productId) st)) <> Some KNotFound /\
  map Product.viewsCount (products (fst (serve E (GET_product now productId) st)))
  = map Product.viewsCount (products st).
Proof.
  intros Hid.
  assert (H : serve E (GET_product now productId) st
              = (st, respond 400 false "Invalid product ID" NoData)).
  { unfold serve, GET_product, getProductById.
    cbn [try_catch bind await run exec]. unfold Mongo.findProductById, Mongo.cast_id.
    rewrite Hid. reflexivity. }
  rewrite H. repeat split. discriminate.
Qed.

Lemma malformed_id_rejected_without_view_witness :
  serve Demo.env (GET_product 5000 "not-an-id") Demo.store
  = (Demo.store, respond 400 false "Invalid product ID" NoData) /\
  kind_of (snd (serve Demo.env (GET_product 5000 "not-an-id") Demo.store))
  = Some KValidationError /\
  kind_of (snd (serve Demo.env (GET_product 5000 "not-an-id") Demo.store))
  <> Some KNotFound /\
  map Product.viewsCount
    (products (fst (serve Demo.env (GET_product 5000 "not-an-id") Demo.store)))
  = map Product.viewsCount (products Demo.store).
Proof.
  apply (malformed_id_rejected_without_view Demo.env Demo.store 5000 "not-an-id").
  reflexivity.
Defined.

(** ** Browsing *)

Lemma getProducts_answers (E : Env) (q : QueryParams) (st : Store) :
  fst (serve E (GET_products q) st) = st /\
  (status_code (snd (serve E (GET_products q) st)) = 200%nat \/
   snd (serve E (GET_products q) st) = internal_error).
Proof.
  unfold serve, GET_products, getProducts.
  cbn [try_catch bind await run exec].
  match goal with |- context [Mongo.find_products ?e ?a ?b ?c ?d ?s] =>
    destruct (Mongo.find_products e a b c d s) as [ps | err] end;
    cbn [try_catch bind await run exec].
  - match goal with |- context [Mongo.count_products ?e ?a ?s] =>
      destruct (Mongo.count_products e a s) as [n | err] end;
      cbn [try_catch bind await run exec fst snd]; auto.
  - cbn [fst snd]. auto.
Qed.

(** C4 (the code at the failing input). Browsing validates nothing: no
    request is ever answered with a validation error. With [limit=101]
    the first page of a catalogue of 101 active products is served in
    full, 101 items in one page, and with [page=0] the answer is the
    internal error that the engine's refusal of a negative offset
    produces. *)
Theorem browse_out_of_range_not_rejected :
  (forall (E : Env) (q : QueryParams) (st : Store),
     kind_of (snd (serve E (GET_products q) st)) <> Some KValidationError) /\
  (exists ps pg,
     serve Demo.env (GET_products (Demo.browse (Some "1") (Some "101"))) (Demo.catalogue 101)
     = (Demo.catalogue 101,
        respond 200 true "Products retrieved successfully" (DPage ps pg)) /\
     length ps = 101%nat /\ totalPages pg = JsNumber.of_Z 1 /\ hasNext pg = false) /\
  serve Demo.env (GET_products (Demo.browse (Some "0") (Some "20"))) (Demo.catalogue 101)
  = (Demo.catalogue 101, internal_error).
Proof.
  split; [| split].
  - intros E q st. destruct (getProducts_answers E q st) as [_ [H | H]].
    + unfold kind_of. rewrite H. discriminate.
    + rewrite H. discriminate.
  - eexists _, _. split; [vm_compute; reflexivity |]. repeat split.
  - vm_compute. reflexivity.
Qed.

(** ** Likes *)

Section LikeFacts.

Variable E : Env.

Lemma likeProducts_like (st : Store) (now : Z) (ru : ReqUser) (u : User.t) (p : Product.t) :
  userId ru = JObjectId (User._id u) ->
  well_formed_id E (Product._id p) ->
  Mongo.user_by_id (User._id u) st = Some u ->
  Mongo.product_by_id (Product._id p) st = Some p ->
  liked_includes (User.likedProducts u) (JString (oid_hex (Product._id p))) = false ->
  run E (likeProducts now (Some ru) (JString (oid_hex (Product._id p)))) st
  = (after_like now u p st,
     Ok (respond 200 true "Product liked successfully" (DLiked true))).
Proof.
  intros Hru Hwf Hu Hp Hl. unfold likeProducts.
  cbn [try_catch bind await run exec]. rewrite Hru.
  cbn [Mongo.findUserById Mongo.cast_id]. rewrite Hu.
  cbn [try_catch bind await run exec]. rewrite (findProductById_text E _ st Hwf), Hp.
  cbn [try_catch bind await run exec]. rewrite Hl.
  unfold incrementLikes.
  cbn [try_catch bind await run exec].
  unfold Writes.save_product. cbn [Product._id Product.set_likesCount]. rewrite Hp.
  cbn [try_catch bind await run exec].
  unfold Writes.save_user. cbn [User._id User.set_likedProducts].
  unfold Mongo.user_by_id in *. cbn [Mongo.with_products users]. rewrite Hu.
  cbn [try_catch bind await run exec]. reflexivity.
Qed.

Lemma likeProducts_unlike (st : Store) (now : Z) (ru : ReqUser) (u : User.t) (p : Product.t) :
  userId ru = JObjectId (User._id u) ->
  well_formed_id E (Product._id p) ->
  Mongo.user_by_id (User._id u) st = Some u ->
  Mongo.product_by_id (Product._id p) st = Some p ->
  liked_includes (User.likedProducts u) (JString (oid_hex (Product._id p))) = true ->
  run E (likeProducts now (Some ru) (JString (oid_hex (Product._id p)))) st
  = (after_unlike now u p st,
     Ok (respond 200 true "Product unliked successfully" (DLiked false))).
Proof.
  intros Hru Hwf Hu Hp Hl. unfold likeProducts.
  cbn [try_catch bind await run exec]. rewrite Hru.
  cbn [Mongo.findUserById Mongo.cast_id]. rewrite Hu.
  cbn [try_catch bind await run exec]. rewrite (findProductById_text E _ st Hwf), Hp.
  cbn [try_catch bind await run exec]. rewrite Hl.
  unfold decrementLikes, after_unlike.
  destruct (0 <? Product.likesCount p).
  - cbn [try_catch bind await run exec].
    unfold Writes.save_product. cbn [Product._id Product.set_likesCount]. rewrite Hp.
    cbn [try_catch bind await run exec].
    unfold Writes.save_user. cbn [User._id User.set_likedProducts].
    unfold Mongo.user_by_id in *. cbn [Mongo.with_products users]. rewrite Hu.
    cbn [try_catch bind await run exec]. reflexivity.
  - cbn [try_catch bind await run exec Writes.save_product].
    unfold Writes.save_user. cbn [User._id User.set_likedProducts]. rewrite Hu.
    cbn [try_catch bind await run exec]. reflexivity.
Qed.

(** Lookups after a like. *)
Lemma after_like_user (now : Z) (u : User.t) (p : Product.t) (st : Store) :
  Mongo.user_by_id (User._id u) st = Some u ->
  Mongo.user_by_id (User._id u) (after_like now u p st)
  = Some (User.set_likedProducts (liked_push (Product._id p) (User.likedProducts u)) u).
Proof.
  intros Hu. unfold after_like, Mongo.user_by_id, Mongo.with_users, Mongo.with_products.
  cbn [users products]. now apply find_replace_user with (u := u).
Qed.

Lemma after_like_product (now : Z) (u : User.t) (p : Product.t) (st : Store) :
  Mongo.product_by_id (Product._id p) st = Some p ->
  Mongo.product_by_id (Product._id p) (after_like now u p st)
  = Some (Product.set_updatedAt now (Product.set_likesCount (Product.likesCount p + 1) p)).
Proof.
  intros Hp. unfold after_like, Mongo.product_by_id, Mongo.with_users, Mongo.with_products.
  cbn [users products]. now apply find_replace_product with (p := p).
Qed.

(** An id that [includes] does not find is not removed by [pull]. *)
Lemma liked_pull_absent (o : ObjectId) (l : list ObjectId) :
  liked_includes l (JString (oid_hex o)) = false -> liked_pull o l = l.
Proof.
  unfold liked_includes, liked_pull. induction l as [| x r IH]; simpl; [reflexivity |].
  intros H. apply orb_false_iff in H. destruct H as [Hx Hr].
  unfold ObjectId_eqb. rewrite String.eqb_sym, Hx. simpl. f_equal. now apply IH.
Qed.

Lemma liked_pull_push (o : ObjectId) (l : list ObjectId) :
  liked_includes l (JString (oid_hex o)) = false -> liked_pull o (liked_push o l) = l.
Proof.
  intros H. unfold liked_push, liked_pull. rewrite filter_app.
  fold (liked_pull o l). rewrite (liked_pull_absent o l H).
  simpl. rewrite ObjectId_eqb_refl. simpl. apply app_nil_r.
Qed.

Lemma liked_includes_push (o : ObjectId) (l : list ObjectId) :
  liked_includes (liked_push o l) (JString (oid_hex o)) = true.
Proof.
  unfold liked_includes, liked_push. rewrite existsb_app. simpl.
  rewrite String.eqb_refl. apply orb_true_iff; right. reflexivity.
Qed.

End LikeFacts.

Section ToggleFacts.

Variable E : Env.

Lemma after_unlike_user (now : Z) (u : User.t) (p : Product.t) (st : Store) :
  Mongo.user_by_id (User._id u) st = Some u ->
  Mongo.user_by_id (User._id u) (after_unlike now u p st)
  = Some (User.set_likedProducts (liked_pull (Product._id p) (User.likedProducts u)) u).
Proof.
  intros Hu. unfold after_unlike, Mongo.user_by_id, Mongo.with_users, Mongo.with_products.
  destruct (0 <? Product.likesCount p); cbn [users products];
    now apply find_replace_user with (u := u).
Qed.

Lemma after_unlike_product (now : Z) (u : User.t) (p : Product.t) (st : Store) :
  Mongo.product_by_id (Product._id p) st = Some p ->
  0 < Product.likesCount p ->
  Mongo.product_by_id (Product._id p) (after_unlike now u p st)
  = Some (Product.set_updatedAt now (Product.set_likesCount (Product.likesCount p - 1) p)).
Proof.
  intros Hp Hpos. unfold after_unlike, Mongo.product_by_id, Mongo.with_users,
    Mongo.with_products.
  apply Z.ltb_lt in Hpos. rewrite Hpos. cbn [users products].
  now apply find_replace_product with (p := p).
Qed.

Lemma likeProducts_not_found (st : Store) (now : Z) (ru : ReqUser) (uid pid : ObjectId) :
  userId ru = JObjectId uid ->
  well_formed_id E pid ->
  Mongo.user_by_id uid st = None \/ Mongo.product_by_id pid st = None ->
  exists msg,
    serve E (likeProducts now (Some ru) (JString (oid_hex pid))) st
    = (st, respond 404 false msg NoData).
Proof.
  intros Hru Hwf Hnone. unfold serve, likeProducts.
  cbn [try_catch bind await run exec]. rewrite Hru.
  cbn [Mongo.findUserById Mongo.cast_id].
  destruct (Mongo.user_by_id uid st) as [u |] eqn:Hu;
    cbn [try_catch bind await run exec]; rewrite (findProductById_text E _ st Hwf);
    destruct (Mongo.product_by_id pid st) as [p |] eqn:Hp;
    cbn [try_catch bind await run exec].
  - destruct Hnone; discriminate.
  - eexists; reflexivity.
  - eexists; reflexivity.
  - eexists; reflexivity.
Qed.

End ToggleFacts.

(** C6 (as amended). For a user and a product that both exist, the
    product addressed by the text of its id, not yet in the user's liked
    list and with a non-negative [likesCount]: two calls in sequence
    answer liked=true and then liked=false, and afterwards the product's
    [likesCount] and the user's liked list are what they were. When the
    user or the product does not exist the call answers NotFound and
    writes nothing. *)
Theorem toggle_like_twice_restores
    (E : Env) (st : Store) (now1 now2 : Z) (ru : ReqUser) (uid pid : ObjectId) :
  userId ru = JObjectId uid ->
  well_formed_id E pid ->
  (forall u p,
     Mongo.user_by_id uid st = Some u ->
     Mongo.product_by_id pid st = Some p ->
     liked_includes (User.likedProducts u) (JString (oid_hex pid)) = false ->
     0 <= Product.likesCount p ->
     exists st1 st2 u2 p2,
       serve E (likeProducts now1 (Some ru) (JString (oid_hex pid))) st
       = (st1, respond 200 true "Product liked successfully" (DLiked true)) /\
       serve E (likeProducts now2 (Some ru) (JString (oid_hex pid))) st1
       = (st2, respond 200 true "Product unliked successfully" (DLiked false)) /\
       Mongo.user_by_id uid st2 = Some u2 /\
       User.likedProducts u2 = User.likedProducts u /\
       Mongo.product_by_id pid st2 = Some p2 /\
       Product.likesCount p2 = Product.likesCount p) /\
  (Mongo.user_by_id uid st = None \/ Mongo.product_by_id pid st = None ->
   exists r,
     serve E (likeProducts now1 (Some ru) (JString (oid_hex pid))) st = (st, r) /\
     kind_of r = Some KNotFound).
Proof.
  intros Hru Hwf. split.
  - intros u p Hu Hp Hl Hc.
    pose proof (user_by_id_id _ _ _ Hu) as Huid.
    pose proof (product_by_id_id _ _ _ Hp) as Hpid. subst uid pid.
    set (u1 := User.set_likedProducts
                 (liked_push (Product._id p) (User.likedProducts u)) u).
    set (p1 := Product.set_updatedAt now1
                 (Product.set_likesCount (Product.likesCount p + 1) p)).
    exists (after_like now1 u p st), (after_unlike now2 u1 p1 (after_like now1 u p st)).
    exists (User.set_likedProducts (liked_pull (Product._id p1) (User.likedProducts u1)) u1).
    exists (Product.set_updatedAt now2
              (Product.set_likesCount (Product.likesCount p1 - 1) p1)).
    assert (Hu1 : Mongo.user_by_id (User._id u1) (after_like now1 u p st) = Some u1)
      by exact (after_like_user now1 u p st Hu).
    assert (Hp1 : Mongo.product_by_id (Product._id p1) (after_like now1 u p st) = Some p1)
      by exact (after_like_product now1 u p st Hp).
    split; [| split; [| split; [| split; [| split]]]].
    + unfold serve. now rewrite (likeProducts_like E st now1 ru u p).
    + assert (Hrun :
        run E (likeProducts now2 (Some ru) (JString (oid_hex (Product._id p))))
          (after_like now1 u p st)
        = (after_unlike now2 u1 p1 (after_like now1 u p st),
           Ok (respond 200 true "Product unliked successfully" (DLiked false)))).
      { apply (likeProducts_unlike E (after_like now1 u p st) now2 ru u1 p1);
          try assumption.
        apply liked_includes_push. }
      unfold serve. now rewrite Hrun.
    + apply (after_unlike_user now2 u1 p1). exact Hu1.
    + cbn [User.likedProducts User.set_likedProducts u1 p1 Product._id
           Product.set_updatedAt Product.set_likesCount].
      now apply liked_pull_push.
    + apply (after_unlike_product now2 u1 p1); [exact Hp1 |].
      cbn [p1 Product.likesCount Product.set_updatedAt Product.set_likesCount]. lia.
    + cbn [p1 Product.likesCount Product.set_updatedAt Product.set_likesCount]. lia.
  - intros Hnone.
    destruct (likeProducts_not_found E st now1 ru uid pid Hru Hwf Hnone) as [msg Hr].
    eexists; split; [exact Hr | reflexivity].
Qed.

Lemma toggle_like_twice_restores_witness :
  exists st1 st2 u2 p2,
    serve Demo.env (likeProducts 5000 (Some bob_request) (JString "65f000000000000000000001"))
      Demo.store
    = (st1, respond 200 true "Product liked successfully" (DLiked true)) /\
    serve Demo.env (likeProducts 6000 (Some bob_request) (JString "65f000000000000000000001"))
      st1
    = (st2, respond 200 true "Product unliked successfully" (DLiked false)) /\
    Mongo.user_by_id Demo.bob_id st2 = Some u2 /\
    User.likedProducts u2 = User.likedProducts Demo.bob /\
    Mongo.product_by_id Demo.camera_id st2 = Some p2 /\
    Product.likesCount p2 = Product.likesCount Demo.camera.
Proof.
  apply (proj1 (toggle_like_twice_restores Demo.env Demo.store 5000 6000 bob_request
                  Demo.bob_id Demo.camera_id eq_refl eq_refl) Demo.bob Demo.camera);
    reflexivity.
Defined.

(** C6 (counterexample). Bob already likes the camera: his first call
    answers liked=false, and only the second liked=true. *)
Lemma toggle_of_liked_product_unlikes_first :
  Mongo.user_by_id Demo.bob_id store_with_like
  = Some (User.set_likedProducts [Demo.camera_id] Demo.bob) /\
  Mongo.product_by_id Demo.camera_id store_with_like
  = Some (Product.set_likesCount 1 Demo.camera) /\
  exists st1 st2,
    serve Demo.env (likeProducts 5000 (Some bob_request) (JString "65f000000000000000000001"))
      store_with_like
    = (st1, respond 200 true "Product unliked successfully" (DLiked false)) /\
    serve Demo.env (likeProducts 6000 (Some bob_request) (JString "65f000000000000000000001"))
      st1
    = (st2, respond 200 true "Product liked successfully" (DLiked true)).
Proof.
  split; [reflexivity |]. split; [reflexivity |].
  eexists _, _. split; vm_compute; reflexivity.
Qed.

(** ** Concurrent likes *)

Section ConcurrencyFacts.

Variable E : Env.

Lemma run_like_writes (st : Store) (now : Z) (user' ustored : User.t)
    (doc stored : Product.t) :
  Mongo.product_by_id (Product._id doc) st = Some stored ->
  Mongo.user_by_id (User._id user') st = Some ustored ->
  run E
    (try_catch
       (incrementLikes now doc ;;;
        await (User_save user') ;;;
        Ret (respond 200 true "Product liked successfully" (DLiked true)))
       (fun _ => Ret internal_error)) st
  = (like_writes now user' ustored doc stored st,
     Ok (respond 200 true "Product liked successfully" (DLiked true))).
Proof.
  intros Hp Hu. unfold incrementLikes.
  cbn [try_catch bind await run exec].
  unfold Writes.save_product. cbn [Product._id Product.set_likesCount]. rewrite Hp.
  cbn [try_catch bind await run exec].
  unfold Writes.save_user.
  unfold Mongo.user_by_id in *. cbn [Mongo.with_products users]. rewrite Hu.
  cbn [try_catch bind await run exec]. reflexivity.
Qed.

Lemma like_writes_product (now : Z) (user' ustored : User.t) (doc stored : Product.t)
    (st : Store) :
  Mongo.product_by_id (Product._id doc) st = Some stored ->
  Mongo.product_by_id (Product._id doc) (like_writes now user' ustored doc stored st)
  = Some (Product.set_updatedAt now
            (Product.set_likesCount (Product.likesCount doc + 1) stored)).
Proof.
  intros Hp. unfold like_writes, Mongo.product_by_id, Mongo.with_users, Mongo.with_products.
  cbn [users products]. apply find_replace_product with (p := stored); [exact Hp |].
  cbn [Product._id Product.set_updatedAt Product.set_likesCount].
  now apply product_by_id_id in Hp.
Qed.

Lemma like_writes_other_user (now : Z) (user' ustored : User.t) (doc stored : Product.t)
    (st : Store) (o : ObjectId) :
  o <> User._id user' ->
  Mongo.user_by_id (User._id user') st = Some ustored ->
  Mongo.user_by_id o (like_writes now user' ustored doc stored st) = Mongo.user_by_id o st.
Proof.
  intros Hne Hu. unfold like_writes, Mongo.user_by_id, Mongo.with_users, Mongo.with_products.
  cbn [users products]. apply find_replace_user_other; [exact Hne |].
  cbn [User._id User.set_likedProducts]. now apply user_by_id_id in Hu.
Qed.

End ConcurrencyFacts.

(** C8 (as amended). The counter is changed by read-modify-write in the
    handler: a like loads the product, adds one to the loaded
    [likesCount] and saves that number. Two likes of one product by
    distinct users who have not liked it both answer liked=true; run one
    after the other they leave [likesCount] greater by 2; when both load
    the product before either saves, the second save overwrites the
    first and [likesCount] is greater by 1 only. *)
Theorem likes_are_read_modify_write
    (E : Env) (st : Store) (now1 now2 : Z) (ru1 ru2 : ReqUser) (u1 u2 : User.t)
    (p : Product.t) :
  userId ru1 = JObjectId (User._id u1) ->
  userId ru2 = JObjectId (User._id u2) ->
  User._id u1 <> User._id u2 ->
  well_formed_id E (Product._id p) ->
  Mongo.user_by_id (User._id u1) st = Some u1 ->
  Mongo.user_by_id (User._id u2) st = Some u2 ->
  Mongo.product_by_id (Product._id p) st = Some p ->
  liked_includes (User.likedProducts u1) (JString (oid_hex (Product._id p))) = false ->
  liked_includes (User.likedProducts u2) (JString (oid_hex (Product._id p))) = false ->
  let like1 := likeProducts now1 (Some ru1) (JString (oid_hex (Product._id p))) in
  let like2 := likeProducts now2 (Some ru2) (JString (oid_hex (Product._id p))) in
  let liked := Ok (respond 200 true "Product liked successfully" (DLiked true)) in
  (exists st' p',
     interleave E [] like1 like2 st = (st', liked, liked) /\
     Mongo.product_by_id (Product._id p) st' = Some p' /\
     Product.likesCount p' = Product.likesCount p + 2) /\
  (exists st' p',
     interleave E [true; true; false; false] like1 like2 st = (st', liked, liked) /\
     Mongo.product_by_id (Product._id p) st' = Some p' /\
     Product.likesCount p' = Product.likesCount p + 1).
Proof.
  intros Hr1 Hr2 Hne Hwf Hu1 Hu2 Hp Hl1 Hl2 like1 like2 liked.
  set (u1' := User.set_likedProducts
                (liked_push (Product._id p) (User.likedProducts u1)) u1).
  set (u2' := User.set_likedProducts
                (liked_push (Product._id p) (User.likedProducts u2)) u2).
  set (p1 := Product.set_updatedAt now1
               (Product.set_likesCount (Product.likesCount p + 1) p)).
  set (sta := like_writes now1 u1' u1 p p st).
  assert (Hpa : Mongo.product_by_id (Product._id p) sta = Some p1)
    by exact (like_writes_product now1 u1' u1 p p st Hp).
  assert (Hua : Mongo.user_by_id (User._id u2) sta = Some u2).
  { unfold sta. rewrite like_writes_other_user; auto. }
  split.
  - (* one after the other *)
    exists (like_writes now2 u2' u2 p1 p1 sta).
    exists (Product.set_updatedAt now2
              (Product.set_likesCount (Product.likesCount p1 + 1) p1)).
    split; [| split].
    + unfold like1, like2, liked. cbn [interleave].
      rewrite (likeProducts_like E st now1 ru1 u1 p) by assumption.
      change (after_like now1 u1 p st) with sta.
      assert (Hsecond :
        run E (likeProducts now2 (Some ru2) (JString (oid_hex (Product._id p)))) sta
        = (after_like now2 u2 p1 sta,
           Ok (respond 200 true "Product liked successfully" (DLiked true))))
        by (apply (likeProducts_like E sta now2 ru2 u2 p1); assumption).
      rewrite Hsecond. reflexivity.
    + exact (like_writes_product now2 u2' u2 p1 p1 sta Hpa).
    + cbn [p1 Product.likesCount Product.set_updatedAt Product.set_likesCount]. lia.
  - (* both load before either saves *)
    exists (like_writes now2 u2' u2 p p1 sta).
    exists (Product.set_updatedAt now2
              (Product.set_likesCount (Product.likesCount p + 1) p1)).
    split; [| split].
    + unfold like1, like2, liked, likeProducts.
      cbn [interleave step try_catch bind await run exec]. rewrite Hr1, Hr2.
      cbn [Mongo.findUserById Mongo.cast_id]. rewrite Hu1.
      cbn [interleave step try_catch bind await run exec].
      rewrite (findProductById_text E _ st Hwf), Hp.
      cbn [interleave step try_catch bind await run exec]. rewrite Hu2.
      cbn [interleave step try_catch bind await run exec].
      rewrite Hl1, Hl2.
      match goal with |- context [run E ?m st] =>
        replace (run E m st)
          with (sta, Ok (respond 200 true "Product liked successfully" (DLiked true)))
          by (symmetry; exact (run_like_writes E st now1 u1' u1 p p Hp Hu1))
      end.
      match goal with |- context [run E ?m sta] =>
        replace (run E m sta)
          with (like_writes now2 u2' u2 p p1 sta,
                Ok (respond 200 true "Product liked successfully" (DLiked true)))
          by (symmetry; exact (run_like_writes E sta now2 u2' u2 p p1 Hpa Hua))
      end.
      reflexivity.
    + exact (like_writes_product now2 u2' u2 p p1 sta Hpa).
    + cbn [p1 Product.likesCount Product.set_updatedAt Product.set_likesCount]. lia.
Qed.

Lemma likes_are_read_modify_write_witness :
  let like1 := likeProducts 5000 (Some alice_request) (JString "65f000000000000000000001") in
  let like2 := likeProducts 5001 (Some bob_request) (JString "65f000000000000000000001") in
  let liked := Ok (respond 200 true "Product liked successfully" (DLiked true)) in
  (exists st' p',
     interleave Demo.env [] like1 like2 Demo.store = (st', liked, liked) /\
     Mongo.product_by_id Demo.camera_id st' = Some p' /\
     Product.likesCount p' = 0 + 2) /\
  (exists st' p',
     interleave Demo.env [true; true; false; false] like1 like2 Demo.store
     = (st', liked, liked) /\
     Mongo.product_by_id Demo.camera_id st' = Some p' /\
     Product.likesCount p' = 0 + 1).
Proof.
  apply (likes_are_read_modify_write Demo.env Demo.store 5000 5001 alice_request bob_request
           Demo.alice Demo.bob Demo.camera); try reflexivity.
  discriminate.
Defined.

(** C8 (counterexample). Alice and Bob like the fresh camera at the same
    time, and each request loads the camera before the other saves it:
    both are answered liked=true, both liked lists hold the camera, and
    its [likesCount] is 1, not 2. *)
Lemma concurrent_likes_lose_an_update :
  exists st',
    interleave Demo.env [true; true; false; false]
      (likeProducts 5000 (Some alice_request) (JString "65f000000000000000000001"))
      (likeProducts 5001 (Some bob_request) (JString "65f000000000000000000001"))
      Demo.store
    = (st', Ok (respond 200 true "Product liked successfully" (DLiked true)),
            Ok (respond 200 true "Product liked successfully" (DLiked true))) /\
    Product.likesCount Demo.camera = 0 /\
    map Product.likesCount (products st') = [1; 0] /\
    map User.likedProducts (users st') = [[Demo.camera_id]; [Demo.camera_id]].
Proof. eexists. split; [vm_compute; reflexivity |]. repeat split. Qed.

(** * Further properties *)

(** ** Lookups after a replacement or a removal *)

Lemma find_replace_product_other (o o' : ObjectId) (d : Product.t) (l : list Product.t) :
  o' <> o -> Product._id d = o ->
  List.find (fun x => ObjectId_eqb (Product._id x) o') (Mongo.replace_product o d l)
  = List.find (fun x => ObjectId_eqb (Product._id x) o') l.
Proof.
  intros Hne Hd. induction l as [| x r IH]; simpl; [reflexivity |].
  destruct (ObjectId_eqb (Product._id x) o) eqn:Hx; simpl.
  - apply ObjectId_eqb_eq in Hx.
    replace (ObjectId_eqb (Product._id d) o') with false
      by (symmetry; apply not_true_is_false; rewrite ObjectId_eqb_eq; congruence).
    replace (ObjectId_eqb (Product._id x) o') with false
      by (symmetry; apply not_true_is_false; rewrite ObjectId_eqb_eq; congruence).
    reflexivity.
  - now rewrite IH.
Qed.


(** ** Detail fetch *)

(** X1. A detail fetch of an existing product, addressed by the text of
    its id, succeeds, adds exactly one to its [viewsCount] and answers
    with the product after the increment; every other product, and every
    user, is as before. A fetch of an id that no product has is answered
    NotFound and changes nothing. *)
Theorem detail_fetch_counts_one_view
    (E : Env) (st : Store) (now : Z) (pid : ObjectId) :
  well_formed_id E pid ->
  (forall p,
     Mongo.product_by_id pid st = Some p ->
     exists st',
       serve E (GET_product now (oid_hex pid)) st
       = (st', respond 200 true "Product retrieved successfully"
                 (DProduct (Some (Product.set_updatedAt now
                                    (Product.set_viewsCount (Product.viewsCount p + 1) p))))) /\
       Mongo.product_by_id pid st'
       = Some (Product.set_updatedAt now
                 (Product.set_viewsCount (Product.viewsCount p + 1) p)) /\
       (forall o, o <> pid -> Mongo.product_by_id o st' = Mongo.product_by_id o st) /\
       users st' = users st) /\
  (Mongo.product_by_id pid st = None ->
   serve E (GET_product now (oid_hex pid)) st
   = (st, respond 404 false "Product not found" NoData)).
Proof.
  intros Hwf. split.
  - intros p Hp. pose proof (product_by_id_id _ _ _ Hp) as Hid.
    eexists. split; [| split; [| split]].
    + unfold serve, GET_product, getProductById.
      cbn [try_catch bind await run exec]. rewrite (findProductById_text E _ st Hwf), Hp.
      unfold incrementViews. cbn [try_catch bind await run exec].
      unfold Writes.save_product. cbn [Product._id Product.set_viewsCount].
      rewrite Hid, Hp. cbn [try_catch bind await run exec fold_right Writes.copy_path].
      cbn [Product.viewsCount Product.set_viewsCount]. reflexivity.
    + unfold Mongo.product_by_id, Mongo.with_products; cbn [products].
      apply find_replace_product with (p := p); [exact Hp |].
      cbn [Product._id Product.set_updatedAt Product.set_viewsCount]. exact Hid.
    + intros o Hne. unfold Mongo.product_by_id, Mongo.with_products; cbn [products].
      apply find_replace_product_other; [exact Hne |].
      cbn [Product._id Product.set_updatedAt Product.set_viewsCount]. exact Hid.
    + reflexivity.
  - intros Hp. unfold serve, GET_product, getProductById.
    cbn [try_catch bind await run exec]. rewrite (findProductById_text E _ st Hwf), Hp.
    reflexivity.
Qed.

Lemma detail_fetch_counts_one_view_witness :
  exists st',
    serve Demo.env (GET_product 5000 "65f000000000000000000001") Demo.store
    = (st', respond 200 true "Product retrieved successfully"
              (DProduct (Some (Product.set_updatedAt 5000
                                 (Product.set_viewsCount
                                    (Product.viewsCount Demo.camera + 1) Demo.camera))))) /\
    Mongo.product_by_id Demo.camera_id st'
    = Some (Product.set_updatedAt 5000
              (Product.set_viewsCount (Product.viewsCount Demo.camera + 1) Demo.camera)) /\
    (forall o, o <> Demo.camera_id ->
               Mongo.product_by_id o st' = Mongo.product_by_id o Demo.store) /\
    users st' = users Demo.store.
Proof.
  apply (proj1 (detail_fetch_counts_one_view Demo.env Demo.store 5000 Demo.camera_id
                  eq_refl) Demo.camera).
  reflexivity.
Defined.

(** ** Updates and deletions *)




Lemma find_remove_product (o o' : ObjectId) (l : list Product.t) :
  NoDup (map Product._id l) ->
  List.find (fun x => ObjectId_eqb (Product._id x) o') (Writes.remove_product o l)
  = if ObjectId_eqb o' o then None
    else List.find (fun x => ObjectId_eqb (Product._id x) o') l.
Proof.
  induction l as [| x r IH]; simpl; intros Hnd.
  - now destruct (ObjectId_eqb o' o).
  - inversion Hnd as [| i ids Hnotin Hnd']; subst.
    destruct (ObjectId_eqb (Product._id x) o) eqn:Hx.
    + apply ObjectId_eqb_eq in Hx. subst o.
      destruct (ObjectId_eqb o' (Product._id x)) eqn:Ho.
      * apply ObjectId_eqb_eq in Ho. subst o'.
        destruct (find (fun y => ObjectId_eqb (Product._id y) (Product._id x)) r)
          as [y |] eqn:Hf; [| reflexivity].
        apply find_some in Hf. destruct Hf as [Hin Hy].
        apply ObjectId_eqb_eq in Hy. exfalso. apply Hnotin.
        rewrite <- Hy. now apply in_map.
      * rewrite ObjectId_eqb_sym, Ho. reflexivity.
    + simpl. rewrite (IH Hnd').
      destruct (ObjectId_eqb o' o) eqn:Ho.
      * apply ObjectId_eqb_eq in Ho. subst o'. now rewrite Hx.
      * reflexivity.
Qed.

(** X3. When the guard of [deleteProduct] lets the owner through, the
    product is removed and nothing else: with unique ids the id finds no
    product afterwards (a detail fetch is answered NotFound), every other
    id finds what it found, and the users are untouched, so the liked
    lists that hold the id keep it. *)
Theorem owner_delete_removes_only_the_product
    (E : Env) (st : Store) (now : Z) (productId : string) (u : ReqUser) (p : Product.t) :
  unique_ids st ->
  Mongo.findProductById E (JString productId) st = Ok (Some p) ->
  userId u = JString (oid_hex (Product.addedBy p)) ->
  exists st',
    serve E (deleteProduct productId (Some u)) st
    = (st', respond 200 true "Product deleted successfully" NoData) /\
    Mongo.product_by_id (Product._id p) st' = None /\
    (forall o, o <> Product._id p -> Mongo.product_by_id o st' = Mongo.product_by_id o st) /\
    users st' = users st /\
    serve E (GET_product now productId) st'
    = (st', respond 404 false "Product not found" NoData).
Proof.
  intros Hnd Hp Hu.
  destruct (findProductById_cases E productId st p Hp) as [o [Hc Ho]].
  pose proof (product_by_id_id _ _ _ Ho) as Hid. subst o.
  exists (Mongo.with_products (Writes.remove_product (Product._id p) (products st)) st).
  assert (Hgone : Mongo.product_by_id (Product._id p)
            (Mongo.with_products (Writes.remove_product (Product._id p) (products st)) st)
          = None).
  { unfold Mongo.product_by_id, Mongo.with_products; cbn [products].
    rewrite (find_remove_product _ _ _ Hnd), ObjectId_eqb_refl. reflexivity. }
  split; [| split; [| split; [| split]]].
  - unfold serve, deleteProduct.
    cbn [try_catch bind await run exec optional_userId]. rewrite Hp, Hu.
    cbn [try_catch bind run string_strict_neq]. rewrite String.eqb_refl.
    cbn [negb try_catch bind await run exec].
    unfold Writes.findByIdAndDelete. rewrite Hc, Ho. reflexivity.
  - exact Hgone.
  - intros o Hne. unfold Mongo.product_by_id, Mongo.with_products; cbn [products].
    rewrite (find_remove_product _ _ _ Hnd).
    replace (ObjectId_eqb o (Product._id p)) with false; [reflexivity |].
    symmetry. apply not_true_is_false. rewrite ObjectId_eqb_eq. exact Hne.
  - reflexivity.
  - unfold serve, GET_product, getProductById.
    cbn [try_catch bind await run exec]. unfold Mongo.findProductById.
    rewrite Hc, Hgone. reflexivity.
Qed.

Lemma demo_unique_ids : unique_ids Demo.store.
Proof.
  unfold unique_ids. simpl. constructor.
  - intros [H | []]. discriminate.
  - constructor; [intros [] | constructor].
Qed.

Lemma owner_delete_removes_only_the_product_witness :
  exists st',
    serve Demo.env
      (deleteProduct "65f000000000000000000001"
         (Some {| userId := JString "650000000000000000000a11"; req_username := "alice";
                  req_email := "alice@example.com" |})) Demo.store
    = (st', respond 200 true "Product deleted successfully" NoData) /\
    Mongo.product_by_id (Product._id Demo.camera) st' = None /\
    (forall o, o <> Product._id Demo.camera ->
               Mongo.product_by_id o st' = Mongo.product_by_id o Demo.store) /\
    users st' = users Demo.store /\
    serve Demo.env (GET_product 6000 "65f000000000000000000001") st'
    = (st', respond 404 false "Product not found" NoData).
Proof.
  apply (owner_delete_removes_only_the_product Demo.env Demo.store 6000
           "65f000000000000000000001" _ Demo.camera demo_unique_ids); reflexivity.
Defined.

(** X4. An update or a deletion of an id that does not cast is answered
    with the internal error (where the detail fetch answers 400), and of
    an id that no product has with NotFound, whoever asks, signed in or
    not: the product is looked up before the requester is. Neither
    writes. *)
Theorem update_and_delete_of_bad_or_absent_id
    (E : Env) (st : Store) (now : Z) (productId : string) (user : option ReqUser)
    (body : UpdateBody) :
  (cast_object_id E productId = None ->
   serve E (updateProduct now productId user body) st = (st, internal_error) /\
   serve E (deleteProduct productId user) st = (st, internal_error)) /\
  (Mongo.findProductById E (JString productId) st = Ok None ->
   serve E (updateProduct now productId user body) st
   = (st, respond 404 false "Product not found" NoData) /\
   serve E (deleteProduct productId user) st
   = (st, respond 404 false "Product not found" NoData)).
Proof.
  split.
  - intros Hc. unfold serve, updateProduct, deleteProduct.
    cbn [try_catch bind await run exec]. unfold Mongo.findProductById, Mongo.cast_id.
    rewrite Hc. split; reflexivity.
  - intros Hn. unfold serve, updateProduct, deleteProduct.
    cbn [try_catch bind await run exec]. rewrite Hn. split; reflexivity.
Qed.

Lemma update_and_delete_of_bad_or_absent_id_witness :
  (serve Demo.env (updateProduct 5000 "not-an-id" None (Demo.body_of Demo.no_updates))
     Demo.store = (Demo.store, internal_error) /\
   serve Demo.env (deleteProduct "not-an-id" None) Demo.store
   = (Demo.store, internal_error)) /\
  (serve Demo.env
     (updateProduct 5000 "65f000000000000000000009" None (Demo.body_of Demo.no_updates))
     Demo.store
   = (Demo.store, respond 404 false "Product not found" NoData) /\
   serve Demo.env (deleteProduct "65f000000000000000000009" None) Demo.store
   = (Demo.store, respond 404 false "Product not found" NoData)).
Proof.
  split.
  - apply (proj1 (update_and_delete_of_bad_or_absent_id Demo.env Demo.store 5000
                    "not-an-id" None (Demo.body_of Demo.no_updates))).
    reflexivity.
  - apply (proj2 (update_and_delete_of_bad_or_absent_id Demo.env Demo.store 5000
                    "65f000000000000000000009" None (Demo.body_of Demo.no_updates))).
    reflexivity.
Defined.

(** ** Authentication middlewares *)

(** X5. Whatever the header and the store, [authenticateToken] writes
    nothing and either passes on the identity of a stored, active user
    (its ObjectId, user name and email) or refuses with 401, or with 500
    "Authentication failed" when the user lookup throws; without a token
    in the header it refuses before any lookup. *)
Theorem authenticateToken_outcomes (E : Env) (authorization : option string) (st : Store) :
  (exists out,
     run E (authenticateToken E authorization) st = (st, Ok out) /\
     match out with
     | Continue u =>
         exists usr,
           Mongo.user_by_id (User._id usr) st = Some usr /\
           User.isActive usr = true /\
           u = {| userId := JObjectId (User._id usr);
                  req_username := User.username usr;
                  req_email := User.email usr |}
     | Responded r =>
         status_code r = 401%nat \/ r = respond 500 false "Authentication failed" NoData
     end) /\
  (bearer_token authorization = None ->
   authenticateToken E authorization
   = Ret (Responded (respond 401 false "Access token is required" NoData))).
Proof.
  split.
  - unfold authenticateToken.
    destruct (bearer_token authorization) as [token |];
      [| eexists; split; [reflexivity | left; reflexivity]].
    destruct (jwt_verify E token) as [uid | |];
      try (eexists; split; [reflexivity | left; reflexivity]).
    cbn [try_catch bind await run exec].
    destruct (Mongo.findUserById E uid st) as [[usr |] | e] eqn:Hf;
      cbn [try_catch bind run].
    + destruct (User.isActive usr) eqn:Ha; cbn [negb try_catch bind run].
      * eexists; split; [reflexivity |]. exists usr. repeat split; try assumption.
        unfold Mongo.findUserById in Hf.
        destruct (Mongo.cast_id E uid) as [[o |] | e]; try discriminate.
        injection Hf as Hf. rewrite (user_by_id_id _ _ _ Hf). exact Hf.
      * eexists; split; [reflexivity | left; reflexivity].
    + eexists; split; [reflexivity | left; reflexivity].
    + eexists; split; [reflexivity | right; reflexivity].
  - intros Hb. unfold authenticateToken. now rewrite Hb.
Qed.

(** X6. [optionalAuth] never refuses and never writes: it yields the
    identity that [authenticateToken] would pass on for the same header,
    and no identity where [authenticateToken] would refuse. *)
Theorem optionalAuth_agrees_with_authenticateToken
    (E : Env) (authorization : option string) (st : Store) :
  exists out,
    run E (authenticateToken E authorization) st = (st, Ok out) /\
    run E (optionalAuth E authorization) st
    = (st, Ok match out with
              | Continue u => Some u
              | Responded _ => None
              end).
Proof.
  unfold authenticateToken, optionalAuth.
  destruct (bearer_token authorization) as [token |];
    [| eexists; split; reflexivity].
  destruct (jwt_verify E token) as [uid | |]; try (eexists; split; reflexivity).
  cbn [try_catch bind await run exec].
  destruct (Mongo.findUserById E uid st) as [[usr |] | e];
    cbn [try_catch bind run]; try (eexists; split; reflexivity).
  destruct (User.isActive usr); cbn [negb try_catch bind run];
    eexists; split; reflexivity.
Qed.

(** X7. [checkOwnership] writes nothing and always answers or passes on;
    it passes a product on exactly when the id finds it and
    [req.user.userId] is the string that is the text of its owner's id.
    So it refuses every identity set by [authenticateToken], whose
    [userId] is an ObjectId. *)
Theorem checkOwnership_passes_only_owner_text
    (E : Env) (st : Store) (resourceId : JsVal) (user : option ReqUser) :
  exists out,
    run E (checkOwnership resourceId user) st = (st, Ok out) /\
    (forall r,
       out = Continue r <->
       exists u, user = Some u /\
                 Mongo.findProductById E resourceId st = Ok (Some r) /\
                 userId u = JString (oid_hex (Product.addedBy r))) /\
    (forall u o, user = Some u -> userId u = JObjectId o ->
                 exists resp, out = Responded resp).
Proof.
  unfold checkOwnership.
  destruct user as [u |]; cbn [try_catch bind await run exec].
  - destruct (Mongo.findProductById E resourceId st) as [[p |] | e];
      cbn [try_catch bind run].
    + destruct (string_strict_neq (oid_hex (Product.addedBy p)) (userId u)) eqn:Hg;
        cbn [try_catch bind run].
      * eexists; split; [reflexivity |]. split.
        -- intros r; split; [discriminate |].
           intros [u' [[= <-] [[= <-] Hu]]]. rewrite Hu in Hg.
           cbn [string_strict_neq] in Hg. rewrite String.eqb_refl in Hg. discriminate.
        -- intros; eexists; reflexivity.
      * eexists; split; [reflexivity |]. split.
        -- intros r; split.
           ++ intros [= <-]. exists u. repeat split.
              destruct (userId u) as [| s |]; try discriminate.
              cbn [string_strict_neq] in Hg. apply negb_false_iff in Hg.
              apply String.eqb_eq in Hg. now subst.
           ++ intros [u' [_ [[= <-] _]]]. reflexivity.
        -- intros u' o [= <-] Ho. rewrite Ho in Hg. discriminate.
    + eexists; split; [reflexivity |]. split.
      * intros r; split; [discriminate |]. intros [u' [_ [H _]]]. discriminate.
      * intros; eexists; reflexivity.
    + eexists; split; [reflexivity |]. split.
      * intros r; split; [discriminate |]. intros [u' [_ [H _]]]. discriminate.
      * intros; eexists; reflexivity.
  - eexists; split; [reflexivity |]. split.
    + intros r; split; [discriminate |]. intros [u' [H _]]. discriminate.
    + intros; eexists; reflexivity.
Qed.

(** ** Browsing *)



















(** ** Listing by category *)

(** X11. The category listing shows what browsing with that category
    shows: for every category name of the route (a path segment, never
    empty), page and limit, [getProductsByCategory] writes nothing and
    succeeds exactly when [getProducts] with [catName] set to the category
    and the same page and limit does, and then both give the same
    products, newest first, the same current page, number of pages and
    total. Otherwise both answer the internal error. *)
Theorem category_listing_agrees_with_browse
    (E : Env) (st : Store) (category_ : string) (q : QueryParams) :
  category_ <> "" ->
  exists r,
    run E (getProductsByCategory category_ q) st = (st, Ok r) /\
    (reply_status r = 200%nat \/ (reply_status r = 500%nat /\ reply_data r = None)) /\
    category_view r
    = page_view (snd (serve E (getProducts (category_browse category_ q)) st)).
Proof.
  intros Hne.
  assert (Ht : truthy (Some category_) = Some category_)
    by (destruct category_; [congruence | reflexivity]).
  unfold serve, getProducts, getProductsByCategory, getByCategory.
  cbn [try_catch bind await run exec category_browse catName page limit status minPrice
         maxPrice sortBy Writes.or_else option_map truthy].
  fold (truthy (Some category_)). rewrite Ht. fold (category_filter category_).
  destruct (Mongo.find_products E (category_filter category_) (Some CreatedAtDesc)
              (Some (int_mul (int_sub (int_param (page q) 1) (Some 1))
                       (int_param (limit q) 20)))
              (Some (int_param (limit q) 20)) st) as [ps | e];
    cbn [try_catch bind await run exec].
  - destruct (Mongo.count_products E (category_filter category_) st) as [n | e];
      cbn [try_catch bind await run exec].
    + eexists. split; [reflexivity |]. split; [now left |]. reflexivity.
    + eexists. split; [reflexivity |]. split; [now right |]. reflexivity.
  - eexists. split; [reflexivity |]. split; [now right |]. reflexivity.
Qed.

Lemma category_listing_agrees_with_browse_witness :
  exists r,
    run Demo.env (getProductsByCategory "Electronics" (Demo.browse (Some "1") (Some "2")))
      (Demo.catalogue 3)
    = (Demo.catalogue 3, Ok r) /\
    (reply_status r = 200%nat \/ (reply_status r = 500%nat /\ reply_data r = None)) /\
    category_view r
    = page_view
        (snd (serve Demo.env
                (getProducts
                   (category_browse "Electronics" (Demo.browse (Some "1") (Some "2"))))
                (Demo.catalogue 3))).
Proof.
  apply (category_listing_agrees_with_browse Demo.env (Demo.catalogue 3) "Electronics"
           (Demo.browse (Some "1") (Some "2"))).
  discriminate.
Defined.

(** ** Adding a product *)

Lemma new_document_fields (E : Env) (oid : ObjectId) (now : Z) (d : ProductData)
    (doc : Product.t) :
  Writes.new_document E oid now d = Ok doc ->
  Product.validate doc = [] /\
  Product._id doc = oid /\ Product.pimage doc = d_pimage d /\
  Product.price doc = d_price d /\ Product.coordinates doc = d_coordinates d /\
  Product.likesCount doc = 0 /\ Product.viewsCount doc = 0 /\
  Product.status doc = "active" /\ Product.createdAt doc = now /\
  (d_addedBy d = JObjectId (Product.addedBy doc) \/
   exists s, d_addedBy d = JString s /\ cast_object_id E s = Some (Product.addedBy doc)).
Proof.
  unfold Writes.new_document. intros H.
  assert (Hown : forall o,
             match d_addedBy d with
             | JObjectId o' => Some o'
             | JString s => cast_object_id E s
             | JUndefined => None
             end = Some o ->
             d_addedBy d = JObjectId o \/
             exists s, d_addedBy d = JString s /\ cast_object_id E s = Some o).
  { intros o Ho. destruct (d_addedBy d) as [| s | o']; [discriminate | right | left].
    - now exists s.
    - now injection Ho as ->. }
  match type of H with
  | match ?ow with Some _ => _ | None => _ end = _ =>
      destruct ow as [own |] eqn:Ho; [| discriminate]
  end.
  match type of H with
  | match Product.validate ?d with [] => _ | _ :: _ => _ end = _ =>
      destruct (Product.validate d) eqn:Hv; [| discriminate]
  end.
  injection H as <-. cbn. repeat (split; [first [exact Hv | reflexivity] |]).
  apply Hown. exact eq_refl.
Qed.

Lemma find_app_last (o : ObjectId) (p : Product.t) (l : list Product.t) :
  List.find (fun x => ObjectId_eqb (Product._id x) o) (l ++ [p])
  = match List.find (fun x => ObjectId_eqb (Product._id x) o) l with
    | Some x => Some x
    | None => if ObjectId_eqb (Product._id p) o then Some p else None
    end.
Proof.
  induction l as [| x r IH]; cbn [app List.find]; [reflexivity |].
  destruct (ObjectId_eqb (Product._id x) o); [reflexivity | exact IH].
Qed.

(** X12. [addProduct] either stores the new listing or leaves the store
    as it was. When it answers 201, exactly one product was appended: it
    carries the id given to it, the first uploaded image, the price and
    the coordinates [longitude, latitude] parsed from the form, counters
    at 0, status active, the creation time, the requester as owner, and
    it passes every validator of the model; every other product is
    untouched, and a detail lookup of the new id finds the listing when
    the id is fresh. Otherwise nothing is stored and the answer is the
    internal error when the request carries no user, 400 when no primary
    image was uploaded, and 400 with the model's issues when the model
    refuses the document. *)
Theorem addProduct_appends_a_valid_listing_or_nothing
    (E : Env) (st : Store) (oid : ObjectId) (now : Z) (user : option ReqUser)
    (body : AddBody) :
  let out := serve E (addProduct oid now user body) st in
  (exists p u image rest,
     out = (Mongo.with_products (products st ++ [p]) st,
            respond 201 true "Product added successfully" (DProduct (Some p))) /\
     user = Some u /\ files_pimage body = image :: rest /\
     (userId u = JObjectId (Product.addedBy p) \/
      exists s, userId u = JString s /\ cast_object_id E s = Some (Product.addedBy p)) /\
     Product._id p = oid /\ Product.pimage p = image /\
     Product.price p = form_number (add_price body) /\
     Product.coordinates p = [form_number (add_plong body); form_number (add_plat body)] /\
     Product.likesCount p = 0 /\ Product.viewsCount p = 0 /\
     Product.status p = "active" /\ Product.createdAt p = now /\
     Product.validate p = [] /\
     (forall o, o <> oid -> Mongo.product_by_id o (fst out) = Mongo.product_by_id o st) /\
     (Mongo.product_by_id oid st = None -> Mongo.product_by_id oid (fst out) = Some p))
  \/ (fst out = st /\
      ((user = None /\ snd out = internal_error) \/
       (user <> None /\ files_pimage body = [] /\
        snd out = respond 400 false "Primary product image is required" NoData) \/
       (user <> None /\ files_pimage body <> [] /\
        exists issues, issues <> [] /\
                       snd out = respond 400 false "Validation failed" (DErrors issues)))).
Proof.
  unfold serve, addProduct.
  destruct user as [u |]; [| right; cbn; split; [reflexivity | now left]].
  destruct (files_pimage body) as [| image rest] eqn:Hf;
    [right; cbn; split; [reflexivity | right; left; now repeat split] |].
  cbn [try_catch bind await run exec]. unfold Writes.create_product.
  match goal with |- context [Writes.new_document ?env ?a ?b ?c] =>
    destruct (Writes.new_document env a b c) as [doc | e] eqn:Hn end.
  - left. cbn [try_catch bind await run exec fst snd].
    apply new_document_fields in Hn.
    cbn [d_pimage d_price d_coordinates d_addedBy] in Hn.
    destruct Hn as (Hv & Hid & Him & Hpr & Hco & Hl & Hvw & Hs & Hcr & Hown).
    exists doc, u, image, rest.
    repeat (split; [first [reflexivity | assumption] |]).
    unfold Mongo.product_by_id. cbn [Mongo.with_products products]. split.
    + intros o Ho. rewrite find_app_last.
      destruct (List.find (fun x => ObjectId_eqb (Product._id x) o) (products st));
        [reflexivity |].
      destruct (ObjectId_eqb (Product._id doc) o) eqn:Heq; [| reflexivity].
      apply ObjectId_eqb_eq in Heq. congruence.
    + intros Hfresh. rewrite find_app_last, Hfresh, Hid, ObjectId_eqb_refl. reflexivity.
  - right. unfold Writes.new_document in Hn.
    assert (He : exists issues, issues <> [] /\ e = ValidationError issues).
    { match type of Hn with
      | match ?ow with Some _ => _ | None => _ end = _ => destruct ow as [own |]
      end.
      - match type of Hn with
        | match Product.validate ?d with [] => _ | _ :: _ => _ end = _ =>
            destruct (Product.validate d) as [| m ms]; [discriminate |]
        end.
        injection Hn as <-. now exists (m :: ms).
      - injection Hn as <-. eexists. split; [| reflexivity].
        intros Hnil. apply app_eq_nil in Hnil. destruct Hnil as [_ Hnil]. discriminate Hnil. }
    destruct He as (issues & Hne & ->). cbn [try_catch bind await run exec fst snd].
    split; [reflexivity |]. right; right.
    split; [discriminate |]. split; [discriminate |]. now exists issues.
Qed.

(** ** The schema of a new product and the model *)












(** ** Invariants under interleaving *)

Lemma keeps_step (E : Env) (I : Store -> Prop) {A} (m : Prog A) (st : Store) :
  keeps E I m -> I st -> I (fst (step E m st)) /\ keeps E I (snd (step E m st)).
Proof.
  destruct m as [a | e | X op k]; cbn [step keeps]; intros Hk Hst.
  - now split.
  - now split.
  - destruct (Hk st Hst) as [H1 H2]. destruct (exec E op st) as [st' r]. now split.
Qed.

Lemma keeps_run (E : Env) (I : Store -> Prop) {A} (m : Prog A) (st : Store) :
  keeps E I m -> I st -> I (fst (run E m st)).
Proof.
  revert st. induction m as [a | e | X op k IH]; intros st Hk Hst; cbn [run keeps fst] in *;
    try exact Hst.
  destruct (Hk st Hst) as [H1 H2]. destruct (exec E op st) as [st' r].
  now apply IH.
Qed.

Lemma keeps_interleave (E : Env) (I : Store -> Prop) {A B} (schedule : list bool)
    (m1 : Prog A) (m2 : Prog B) (st : Store) :
  keeps E I m1 -> keeps E I m2 -> I st ->
  I (fst (fst (interleave E schedule m1 m2 st))).
Proof.
  revert m1 m2 st. induction schedule as [| b rest IH]; intros m1 m2 st H1 H2 Hst;
    cbn [interleave].
  - pose proof (keeps_run E I m1 st H1 Hst) as Hr1.
    destruct (run E m1 st) as [st1 r1]. cbn [fst] in Hr1.
    pose proof (keeps_run E I m2 st1 H2 Hr1) as Hr2.
    destruct (run E m2 st1) as [st2 r2]. exact Hr2.
  - destruct b.
    + destruct (keeps_step E I m1 st H1 Hst) as [Hs Hk].
      destruct (step E m1 st) as [st' m1']. now apply IH.
    + destruct (keeps_step E I m2 st H2 Hst) as [Hs Hk].
      destruct (step E m2 st) as [st' m2']. now apply IH.
Qed.

Lemma save_likes_nonneg (E : Env) (doc : Product.t) (modified : list ProductPath) (now : Z)
    (st : Store) :
  0 <= Product.likesCount doc -> likes_nonneg st ->
  likes_nonneg (fst (exec E (Product_save doc modified now) st)).
Proof.
  intros Hdoc Hst. cbn [exec]. unfold Writes.save_product.
  destruct modified as [| path paths]; [exact Hst |].
  destruct (Mongo.product_by_id (Product._id doc) st) as [stored |] eqn:Hf; [| exact Hst].
  cbn [fst]. unfold likes_nonneg. cbn [Mongo.with_products products].
  apply Forall_replace_product; [exact Hst |].
  assert (Hstored : 0 <= Product.likesCount stored).
  { unfold Mongo.product_by_id in Hf. apply find_some in Hf as [Hin _].
    exact (proj1 (Forall_forall _ _) Hst stored Hin). }
  cbn [Product.set_updatedAt Product.likesCount].
  set (paths' := path :: paths). clearbody paths'.
  induction paths' as [| x r IH]; cbn [fold_right]; [exact Hstored |].
  destruct x; cbn [Writes.copy_path Product.set_likesCount Product.set_viewsCount
                     Product.likesCount]; assumption.
Qed.

Lemma save_user_likes_nonneg (E : Env) (doc : User.t) (st : Store) :
  likes_nonneg st -> likes_nonneg (fst (exec E (User_save doc) st)).
Proof.
  intros Hst. cbn [exec]. unfold Writes.save_user.
  destruct (Mongo.user_by_id (User._id doc) st); exact Hst.
Qed.

Lemma likeProducts_keeps_likes_nonneg (E : Env) (now : Z) (user : option ReqUser)
    (productId : JsVal) :
  keeps E likes_nonneg (likeProducts now user productId).
Proof.
  unfold likeProducts. destruct user as [ru |]; [| exact Logic.I].
  cbn [try_catch bind await keeps]. intros st Hst. cbn [exec fst snd].
  split; [exact Hst |].
  destruct (Mongo.findUserById E (userId ru) st) as [user_ | e];
    cbn [try_catch bind await keeps]; [| exact Logic.I].
  intros st1 Hst1. cbn [exec fst snd]. split; [exact Hst1 |].
  destruct (Mongo.findProductById E productId st1) as [product | e] eqn:Hfind;
    cbn [try_catch bind await keeps]; [| exact Logic.I].
  destruct user_ as [u |]; [| exact Logic.I].
  destruct product as [p |]; [| exact Logic.I].
  assert (Hp : 0 <= Product.likesCount p).
  { unfold Mongo.findProductById in Hfind.
    destruct (Mongo.cast_id E productId) as [[o |] | e]; try discriminate.
    injection Hfind as Hfind. unfold Mongo.product_by_id in Hfind.
    apply find_some in Hfind as [Hin _].
    exact (proj1 (Forall_forall _ _) Hst1 p Hin). }
  destruct (liked_includes (User.likedProducts u) productId).
  - unfold decrementLikes. destruct (0 <? Product.likesCount p) eqn:Hpos;
      cbn [try_catch bind await keeps]; intros st2 Hst2; (split;
        [apply save_likes_nonneg;
         [cbn [Product.set_likesCount Product.likesCount]; try apply Z.ltb_lt in Hpos; lia
         | exact Hst2] |]).
    + match goal with |- context [snd ?x] => destruct (snd x) as [d | e] end;
        cbn [try_catch bind await keeps]; [| exact Logic.I].
      intros st3 Hst3. split; [now apply save_user_likes_nonneg |].
      match goal with |- context [snd ?x] => destruct (snd x) as [d' | e] end;
        exact Logic.I.
    + match goal with |- context [snd ?x] => destruct (snd x) as [d | e] end;
        cbn [try_catch bind await keeps]; [| exact Logic.I].
      intros st3 Hst3. split; [now apply save_user_likes_nonneg |].
      match goal with |- context [snd ?x] => destruct (snd x) as [d' | e] end;
        exact Logic.I.
  - unfold incrementLikes. cbn [try_catch bind await keeps]. intros st2 Hst2.
    split; [apply save_likes_nonneg;
            [cbn [Product.set_likesCount Product.likesCount]; lia | exact Hst2] |].
    match goal with |- context [snd ?x] => destruct (snd x) as [d | e] end;
      cbn [try_catch bind await keeps]; [| exact Logic.I].
    intros st3 Hst3. split; [now apply save_user_likes_nonneg |].
    match goal with |- context [snd ?x] => destruct (snd x) as [d' | e] end;
      exact Logic.I.
Qed.

(** X14. No interleaving of two like or unlike requests, by whichever
    users and on whichever products, makes a like counter negative: an
    unlike lowers only a counter that it loaded above zero, and writes
    the number it computed from the loaded one. *)
Theorem likes_stay_nonnegative_under_interleaving
    (E : Env) (now1 now2 : Z) (user1 user2 : option ReqUser) (productId1 productId2 : JsVal)
    (schedule : list bool) (st : Store) :
  likes_nonneg st ->
  likes_nonneg
    (fst (fst (interleave E schedule (likeProducts now1 user1 productId1)
                 (likeProducts now2 user2 productId2) st))).
Proof.
  intros Hst. apply keeps_interleave;
    [apply likeProducts_keeps_likes_nonneg | apply likeProducts_keeps_likes_nonneg | exact Hst].
Qed.

Lemma likes_stay_nonnegative_under_interleaving_witness :
  likes_nonneg
    (fst (fst (interleave Demo.env [true; true; false; false]
                 (likeProducts 5000 (Some (alice_request)) (JString "65f000000000000000000001"))
                 (likeProducts 5001 (Some (bob_request)) (JString "65f000000000000000000001"))
                 Demo.store))).
Proof.
  apply (likes_stay_nonnegative_under_interleaving Demo.env 5000 5001
           (Some alice_request) (Some bob_request)
           (JString "65f000000000000000000001") (JString "65f000000000000000000001")
           [true; true; false; false] Demo.store).
  unfold likes_nonneg. cbn. repeat constructor; discriminate.
Defined.




(** ** Products near a point *)

(** X16. [Product.findByLocation], for a point within the longitude and
    latitude bounds and a radius in metres that is not negative (50000
    when none is given), reads without writing and lists exactly the
    stored products that are active and lie within the radius of the
    point, the nearest first: without the explicit sort of the search
    handler the distance order of [$near] stands. *)
Theorem findByLocation_lists_active_products_nearest_first
    (E : Env) (st : Store) (lon lat radius : Q) (maxDistance_ : option JsNum) :
  Product.coordinates_ok [Fin lon; Fin lat] = true ->
  Writes.or_else maxDistance_ (JsNumber.of_Z 50000) = Fin radius -> (0 <= radius)%Q ->
  exists ps,
    run E (findByLocation (Fin lon) (Fin lat) maxDistance_) st = (st, Ok ps) /\
    nearest_first E (lon, lat) ps /\
    (forall p, In p ps <->
       In p (products st) /\
       Product.status p = "active" /\
       exists pos, Mongo.position_of p = Some pos /\
                   (geo_distance E pos (lon, lat) <= radius)%Q) /\
    (maxDistance_ = None -> (radius == 50000 # 1)%Q).
Proof.
  intros Hc Hr H0.
  unfold findByLocation. cbn [await run exec]. unfold Mongo.find_products, Mongo.compile.
  cbn [q_price_gte q_price_lte q_or_regex q_near q_status q_category].
  unfold Mongo.near_centre, Mongo.near_bound. cbn [near_lon near_lat near_max].
  rewrite Hc, Hr.
  assert (Hb : Qle_bool 0 radius = true) by (now apply Qle_bool_iff).
  rewrite Hb. cbn [Mongo.order q_near]. unfold Mongo.near_centre. cbn [near_lon near_lat].
  rewrite Hc. cbn [Mongo.apply_skip Mongo.apply_limit].
  eexists. split; [reflexivity |]. split; [apply sort_nearest_first |]. split.
  - intros p. rewrite sort_by_In, filter_In. cbn [Mongo.opt_all].
    rewrite !andb_true_r. rewrite andb_true_iff, String.eqb_eq.
    unfold Mongo.within. split.
    + intros (Hin & Hs & Hw). split; [exact Hin |]. split; [exact Hs |].
      destruct (Mongo.position_of p) as [pos |]; [| discriminate].
      exists pos. split; [reflexivity |]. now apply Qle_bool_iff.
    + intros (Hin & Hs & pos & Hpos & Hd). split; [exact Hin |]. split; [exact Hs |].
      rewrite Hpos. now apply Qle_bool_iff.
  - intros ->. cbn [Writes.or_else] in Hr. injection Hr as <-. reflexivity.
Qed.

Lemma findByLocation_lists_active_products_nearest_first_witness :
  exists ps,
    run Demo.env (findByLocation (Fin (77209 # 1000)) (Fin (286139 # 10000)) None) Demo.store
    = (Demo.store, Ok ps) /\
    nearest_first Demo.env (77209 # 1000, 286139 # 10000) ps /\
    (forall p, In p ps <->
       In p (products Demo.store) /\
       Product.status p = "active" /\
       exists pos, Mongo.position_of p = Some pos /\
                   (geo_distance Demo.env pos (77209 # 1000, 286139 # 10000) <= 50000 # 1)%Q) /\
    (@None JsNum = None -> (50000 # 1 == 50000 # 1)%Q).
Proof.
  apply (findByLocation_lists_active_products_nearest_first Demo.env Demo.store
           (77209 # 1000) (286139 # 10000) (50000 # 1) None).
  - reflexivity.
  - reflexivity.
  - discriminate.
Defined.

(** ** The location of a search, from the schema to the handler *)





















(** ** Users *)

(** X18. A stored user is found by its email written in any letter case:
    when emails are unique and the identifier is nobody's user name,
    [findByEmailOrUsername] returns the user whose email is the
    identifier in lower case. *)
Theorem user_found_by_email_in_any_case (st : Store) (u : User.t) (identifier : string) :
  In u (users st) ->
  User.email u = toLowerCase identifier ->
  (forall v, In v (users st) -> User.email v = User.email u -> v = u) ->
  (forall v, In v (users st) -> User.username v <> identifier) ->
  findByEmailOrUsername identifier st = Some u.
Proof.
  unfold findByEmailOrUsername. intros Hin Hmail Huniq Hname.
  induction (users st) as [| x r IH]; [contradiction |].
  cbn [List.find].
  assert (Hx : String.eqb (User.username x) identifier = false).
  { apply String.eqb_neq. apply Hname. now left. }
  rewrite Hx, orb_false_r.
  destruct (String.eqb (User.email x) (toLowerCase identifier)) eqn:He.
  - apply String.eqb_eq in He. f_equal. apply Huniq; [now left | congruence].
  - destruct Hin as [-> | Hin].
    + rewrite Hmail, String.eqb_refl in He. discriminate.
    + apply IH; [exact Hin | |]; intros v Hv; [apply Huniq | apply Hname]; now right.
Qed.

Lemma user_found_by_email_in_any_case_witness :
  findByEmailOrUsername "Alice@Example.COM" Demo.store = Some Demo.alice.
Proof.
  apply (user_found_by_email_in_any_case Demo.store Demo.alice "Alice@Example.COM").
  - now left.
  - reflexivity.
  - intros v [<- | [<- | []]]; [reflexivity | discriminate].
  - intros v [<- | [<- | []]]; discriminate.
Defined.

(** ** The liked products after a toggle *)

Lemma populate_liked_In (u : User.t) (st : Store) (p : Product.t) :
  In p (populate_liked u st) <->
  exists o, In o (User.likedProducts u) /\ Mongo.product_by_id o st = Some p.
Proof.
  unfold populate_liked. rewrite in_flat_map. split; intros [o [Ho Hp]]; exists o.
  - split; [exact Ho |]. destruct (Mongo.product_by_id o st) as [x |]; [| contradiction].
    destruct Hp as [-> | []]. reflexivity.
  - split; [exact Ho |]. rewrite Hp. now left.
Qed.

(** X19. The liked-products listing follows the toggle: right after a
    user's like request for a stored product succeeds, the listing of
    that user holds the product with its counter raised by one when the
    request was a like, and no product with that id when it was an
    unlike. *)
Theorem liked_listing_follows_the_toggle
    (E : Env) (st : Store) (now : Z) (ru : ReqUser) (u : User.t) (p : Product.t) :
  userId ru = JObjectId (User._id u) ->
  well_formed_id E (Product._id p) ->
  Mongo.user_by_id (User._id u) st = Some u ->
  Mongo.product_by_id (Product._id p) st = Some p ->
  let st' :=
    fst (run E (likeProducts now (Some ru) (JString (oid_hex (Product._id p)))) st) in
  exists ps,
    likedProducts E (Some ru) st'
    = {| reply_status := 200; reply_success := true;
         reply_message := "Liked products retrieved successfully";
         reply_data := Some ps |} /\
    if liked_includes (User.likedProducts u) (JString (oid_hex (Product._id p)))
    then Forall (fun x => Product._id x <> Product._id p) ps
    else exists p', In p' ps /\ Product._id p' = Product._id p /\
                    Product.likesCount p' = Product.likesCount p + 1.
Proof.
  intros Hru Hwf Hu Hp st'. unfold likedProducts. rewrite Hru.
  cbn [Mongo.findUserById Mongo.cast_id].
  destruct (liked_includes (User.likedProducts u) (JString (oid_hex (Product._id p))))
    eqn:Hl; subst st'.
  - rewrite (likeProducts_unlike E st now ru u p Hru Hwf Hu Hp Hl). cbn [fst].
    rewrite (after_unlike_user now u p st Hu).
    eexists. split; [reflexivity |].
    apply Forall_forall. intros x Hx. apply populate_liked_In in Hx as (o & Ho & Hx).
    cbn [User.likedProducts User.set_likedProducts] in Ho.
    unfold liked_pull in Ho. apply filter_In in Ho as [_ Ho].
    apply negb_true_iff in Ho. apply product_by_id_id in Hx. rewrite Hx.
    intros Heq. rewrite Heq, ObjectId_eqb_refl in Ho. discriminate.
  - rewrite (likeProducts_like E st now ru u p Hru Hwf Hu Hp Hl). cbn [fst].
    rewrite (after_like_user now u p st Hu).
    eexists. split; [reflexivity |].
    exists (Product.set_updatedAt now (Product.set_likesCount (Product.likesCount p + 1) p)).
    split; [| split; reflexivity].
    apply populate_liked_In. exists (Product._id p). split.
    + cbn [User.likedProducts User.set_likedProducts]. unfold liked_push.
      apply in_or_app. right. now left.
    + now apply after_like_product.
Qed.

Lemma liked_listing_follows_the_toggle_witness :
  let st' :=
    fst (run Demo.env
           (likeProducts 5000 (Some alice_request)
              (JString (oid_hex (Product._id Demo.camera)))) Demo.store) in
  exists ps,
    likedProducts Demo.env (Some alice_request) st'
    = {| reply_status := 200; reply_success := true;
         reply_message := "Liked products retrieved successfully";
         reply_data := Some ps |} /\
    if liked_includes (User.likedProducts Demo.alice)
         (JString (oid_hex (Product._id Demo.camera)))
    then Forall (fun x => Product._id x <> Product._id Demo.camera) ps
    else exists p', In p' ps /\ Product._id p' = Product._id Demo.camera /\
                    Product.likesCount p' = Product.likesCount Demo.camera + 1.
Proof.
  apply (liked_listing_follows_the_toggle Demo.env Demo.store 5000 alice_request
           Demo.alice Demo.camera); reflexivity.
Defined.

Lemma findUserById_found (E : Env) (v : JsVal) (st : Store) (u : User.t) :
  Mongo.findUserById E v st = Ok (Some u) -> Mongo.user_by_id (User._id u) st = Some u.
Proof.
  unfold Mongo.findUserById. destruct (Mongo.cast_id E v) as [[o |] | e]; try discriminate.
  intros [= H]. now rewrite (user_by_id_id _ _ _ H).
Qed.



(** ** The products and the profile of the requester *)

(** X21. For the identity that [authenticateToken] sets (an ObjectId),
    [getUserProducts] reads without failing and lists exactly the stored
    products whose owner is the requester, whatever their status (sold
    and inactive ones too), the newest first. *)
Theorem my_products_lists_all_own_products_newest_first
    (E : Env) (st : Store) (ru : ReqUser) (o : ObjectId) :
  userId ru = JObjectId o ->
  exists ps,
    getUserProducts E (Some ru) st
    = {| reply_status := 200; reply_success := true;
         reply_message := "User products retrieved successfully";
         reply_data := Some ps |} /\
    (forall p, In p ps <-> In p (products st) /\ Product.addedBy p = o) /\
    newest_first ps.
Proof.
  intros Hu. unfold getUserProducts, ProductStatics.getUserProducts. rewrite Hu.
  cbn [Mongo.cast_id]. eexists. split; [reflexivity |]. split.
  - intros p. rewrite sort_by_In, filter_In, ObjectId_eqb_eq. reflexivity.
  - apply sort_newest_first.
Qed.

Lemma my_products_lists_all_own_products_newest_first_witness :
  exists ps,
    getUserProducts Demo.env (Some alice_request) Demo.store
    = {| reply_status := 200; reply_success := true;
         reply_message := "User products retrieved successfully";
         reply_data := Some ps |} /\
    (forall p, In p ps <-> In p (products Demo.store) /\ Product.addedBy p = Demo.alice_id) /\
    newest_first ps.
Proof.
  apply (my_products_lists_all_own_products_newest_first Demo.env Demo.store
           alice_request Demo.alice_id).
  reflexivity.
Defined.

(** X22. Behind [authenticateToken] the profile handler never answers
    "User not found": served alone, a profile request writes nothing and
    is answered 200 with the stored, active user that the token names,
    or with the refusal of the middleware (401, or 500 "Authentication
    failed"). *)
Theorem profile_behind_authentication_is_the_token_user
    (E : Env) (authorization : option string) (st : Store) :
  exists r,
    run E (GET_profile E authorization) st = (st, Ok r) /\
    ((reply_status r = 200%nat /\
      exists usr, reply_data r = Some usr /\
                  Mongo.user_by_id (User._id usr) st = Some usr /\
                  User.isActive usr = true)
     \/ (reply_data r = None /\
         (reply_status r = 401%nat \/
          (reply_status r = 500%nat /\ reply_message r = "Authentication failed")))).
Proof.
  unfold GET_profile, authenticateToken.
  destruct (bearer_token authorization) as [token |];
    [| eexists; split; [reflexivity |]; right; split; [reflexivity | now left]].
  destruct (jwt_verify E token) as [uid | |];
    try (eexists; split; [reflexivity |]; right; split; [reflexivity | now left]).
  cbn [try_catch bind await run exec].
  destruct (Mongo.findUserById E uid st) as [[u |] | e] eqn:Hf;
    cbn [try_catch bind await run exec];
    try (eexists; split; [reflexivity |]; right; split; [reflexivity | now left]).
  - pose proof (findUserById_found E uid st u Hf) as Hu.
    destruct (User.isActive u) eqn:Ha; cbn [negb try_catch bind await run exec].
    + unfold getProfile. cbn [try_catch bind await run exec userId].
      cbn [Mongo.findUserById Mongo.cast_id]. rewrite Hu.
      cbn [try_catch bind await run exec].
      eexists; split; [reflexivity |]. left. split; [reflexivity |].
      exists u. now repeat split.
    + eexists; split; [reflexivity |]; right; split; [reflexivity | now left].
  - eexists; split; [reflexivity |]. right. split; [reflexivity |]. right. now split.
Qed.
